(** * Terra Tranquil API: a shallow embedding of [main.py] and [schemas.py]

    The HTTP handlers of [main.py] are embedded as functions over an explicit
    document store.  The module-level handle [db] is either [None] (no
    database configured) or a database with the collections [business],
    [visit] and [impact]; a handler takes the handle and returns what it
    returns or raises together with the handle afterwards. *)

From Stdlib Require Import ZArith NArith Ascii String List Lia Sorted Permutation.
From stdpp Require Import gmap strings list fin_maps.

Local Open Scope Z_scope.
Local Open Scope string_scope.
Local Open Scope list_scope.

(** ** Values and documents *)

(** What the fields of the documents of this application hold.  [VOid]
    carries the 12 bytes of a [bson.ObjectId], [VTime] a creation time. *)
Inductive value :=
| VNone
| VStr (s : string)
| VInt (n : Z)
| VBools (l : list bool)
| VOid (binary : string)
| VTime (t : nat).

#[global] Instance value_eq_dec : EqDecision value.
Proof. solve_decision. Defined.

(** A Python [dict] with string keys. *)
Abbreviation pydict := (gmap string value).

(** A stored document: MongoDB gives every document an [_id]. *)
Record document := Document { doc_id : string; doc_fields : pydict }.

(** The [dict] pymongo hands out for a stored document. *)
Definition to_dict (d : document) : pydict :=
  <["_id" := VOid (doc_id d)]> (doc_fields d).

(** ** [bson.ObjectId] and its string form *)

Module ObjectId.

(** [Py_ISSPACE]: the characters [bytes.fromhex] skips between bytes. *)
Definition is_space (c : ascii) : bool :=
  let n := N_of_ascii c in
  ((n =? 32) || ((9 <=? n) && (n <=? 13)))%N.

Definition hex_value (c : ascii) : option N :=
  let n := N_of_ascii c in
  (if (48 <=? n) && (n <=? 57) then Some (n - 48)
   else if (97 <=? n) && (n <=? 102) then Some (n - 87)
   else if (65 <=? n) && (n <=? 70) then Some (n - 55)
   else None)%N.

Definition hex_digit (n : N) : ascii :=
  (if n <? 10 then ascii_of_N (48 + n) else ascii_of_N (87 + n))%N.

(** [bytes.fromhex]: [None] where it raises [ValueError]. *)
Fixpoint fromhex (s : string) : option string :=
  match s with
  | EmptyString => Some EmptyString
  | String c s' =>
      if is_space c then fromhex s'
      else match hex_value c, s' with
           | Some top, String c' s'' =>
               match hex_value c' with
               | Some bot =>
                   match fromhex s'' with
                   | Some bs => Some (String (ascii_of_N (top * 16 + bot)) bs)
                   | None => None
                   end
               | None => None
               end
           | _, _ => None
           end
  end.

(** [binascii.hexlify], in lower case. *)
Fixpoint hexlify (bs : string) : string :=
  match bs with
  | EmptyString => EmptyString
  | String b bs' =>
      let n := N_of_ascii b in
      String (hex_digit (n / 16)) (String (hex_digit (n mod 16)) (hexlify bs'))
  end.

(** [ObjectId(oid)] for a [str]: [None] where it raises [InvalidId]
    (a string that is not 24 characters long, or that [bytes.fromhex]
    rejects). *)
Definition parse (oid : string) : option string :=
  if (String.length oid =? 24)%nat then fromhex oid else None.

(** [str(ObjectId)]. *)
Definition str (binary : string) : string := hexlify binary.

(** The bytes of the [n]-th identifier the driver generates: twelve
    bytes, most significant first. *)
Definition generate (n : N) : string :=
  string_of_list_ascii
    (List.map (fun k => ascii_of_N ((n / 256 ^ k) mod 256))
              [11; 10; 9; 8; 7; 6; 5; 4; 3; 2; 1; 0]%N).

End ObjectId.

(** ** Exceptions and the handler monad *)

Inductive exn :=
| HTTPException (status_code : Z) (detail : string)
| ValidationError
| WriteError
| TypeError
| AttributeError
| KeyError
| InvalidId
| OperationFailure
| Unavailable.

Inductive result (A : Type) :=
| Return (a : A)
| Raise (e : exn).
Arguments Return {A} a.
Arguments Raise {A} e.

(** The three collections, each in natural (insertion) order, the counter
    the driver draws fresh [_id]s from, and the clock creation times are
    read from. *)
Record database := Database {
  business : list document;
  visit : list document;
  impact : list document;
  oid_counter : N;
  clock : nat
}.

Inductive collection := c_business | c_visit | c_impact.

Definition get_coll (c : collection) (d : database) : list document :=
  match c with
  | c_business => business d
  | c_visit => visit d
  | c_impact => impact d
  end.

Definition set_coll (c : collection) (l : list document) (d : database) : database :=
  match c with
  | c_business => Database l (visit d) (impact d) (oid_counter d) (clock d)
  | c_visit => Database (business d) l (impact d) (oid_counter d) (clock d)
  | c_impact => Database (business d) (visit d) l (oid_counter d) (clock d)
  end.

(** Code that runs against an open database: it returns or raises, and
    what it wrote before raising stays written. *)
Definition M (A : Type) : Type := database -> result A * database.

Definition ret {A} (a : A) : M A := fun d => (Return a, d).
Definition raise {A} (e : exn) : M A := fun d => (Raise e, d).
Definition bind {A B} (m : M A) (f : A -> M B) : M B :=
  fun d => match m d with
           | (Return a, d') => f a d'
           | (Raise e, d') => (Raise e, d')
           end.

Notation "x <- m ;; k" := (bind m (fun x => k))
  (at level 100, m at next level, right associativity).
Notation "m ;;; k" := (bind m (fun _ => k))
  (at level 100, right associativity).

(** ** The store operations of pymongo that the handlers use *)

(** A filter document of equality conditions, as in [{"user_id": user_id}]. *)
Definition query := list (string * value).

Definition matches (q : query) (d : document) : bool :=
  forallb (fun kv => bool_decide (to_dict d !! kv.1 = Some kv.2)) q.

(** [Collection.find_one(q)]: the first match in natural order, or [None]. *)
Definition find_one (c : collection) (q : query) : M (option pydict) :=
  fun d => (Return (to_dict <$> List.find (matches q) (get_coll c d)), d).

(** [Collection.insert_one(fields)]: the document is given a new [_id] and
    appended.  The driver's identifiers are unique; the model draws them
    from [oid_counter]. *)
Definition insert_one (c : collection) (fields : pydict) : M string :=
  fun d =>
    let o := ObjectId.generate (oid_counter d) in
    let d' := set_coll c (get_coll c d ++ [Document o fields]) d in
    (Return o,
     Database (business d') (visit d') (impact d') (N.succ (oid_counter d)) (clock d')).

(** An update document with the operators the handlers use. *)
Record update := Update {
  u_setOnInsert : list (string * value);
  u_inc : list (string * Z);
  u_set : list (string * value)
}.

(** The number [$inc] finds at a field: a missing field counts as zero, and
    a field that holds anything but a number makes the write fail. *)
Definition numeric (v : option value) : option Z :=
  match v with
  | None => Some 0
  | Some (VInt m) => Some m
  | Some _ => None
  end.

Definition apply_inc (f : option pydict) (kn : string * Z) : option pydict :=
  match f with
  | None => None
  | Some f =>
      match numeric (f !! kn.1) with
      | Some m => Some (<[kn.1 := VInt (m + kn.2)]> f)
      | None => None
      end
  end.

Definition apply_set (f : pydict) (kv : string * value) : pydict :=
  <[kv.1 := kv.2]> f.

(** The operators applied to the fields of a matched document
    ([$setOnInsert] does nothing there); [None] when the write fails, in
    which case the document is not modified at all. *)
Definition apply_update (u : update) (f : pydict) : option pydict :=
  match fold_left apply_inc (u_inc u) (Some f) with
  | Some f' => Some (fold_left apply_set (u_set u) f')
  | None => None
  end.

(** The first document matching [q] replaced by its update: [None] when
    no document matches. *)
Fixpoint update_first (q : query) (u : update) (l : list document)
  : option (result (list document)) :=
  match l with
  | [] => None
  | d :: l' =>
      if matches q d then
        Some (match apply_update u (doc_fields d) with
              | Some f' => Return (Document (doc_id d) f' :: l')
              | None => Raise WriteError
              end)
      else
        match update_first q u l' with
        | Some (Return l'') => Some (Return (d :: l''))
        | Some (Raise e) => Some (Raise e)
        | None => None
        end
  end.

(** The fields of the document an upsert inserts: the equality conditions
    of the filter (but for [_id]), then [$setOnInsert], then the other
    operators. *)
Definition upsert_fields (q : query) (u : update) : option pydict :=
  apply_update u
    (fold_left apply_set (u_setOnInsert u)
       (fold_left apply_set
          (List.filter (fun kv => negb (String.eqb kv.1 "_id")) q) ∅)).

(** [Collection.update_one(q, u, upsert)]. *)
Definition update_one (c : collection) (q : query) (u : update) (upsert : bool)
  : M unit :=
  fun d =>
    match update_first q u (get_coll c d) with
    | Some (Return l') => (Return tt, set_coll c l' d)
    | Some (Raise e) => (Raise e, d)
    | None =>
        if upsert then
          match upsert_fields q u with
          | Some f => (_ <- insert_one c f ;; ret tt) d
          | None => (Raise WriteError, d)
          end
        else (Return tt, d)
    end.

(** Modelled from the spec: [database.create_document], which is imported
    by [main.py] but is not among the sources.  The store adapter's create
    operation persists the dumped record in the named collection and gives
    back the string form of the identity the store assigned; the record is
    stamped with its creation time under [created_at] (the key
    [get_user_visits] sorts on). *)
Definition create_document (c : collection) (data : pydict) : M string :=
  fun d =>
    let stamped := <["created_at" := VTime (clock d)]> data in
    let d1 := Database (business d) (visit d) (impact d) (oid_counter d) (S (clock d)) in
    (o <- insert_one c stamped ;; ret (ObjectId.str o)) d1.

(** ** Python helpers *)

(** [d.get(k)]. *)
Definition get (d : pydict) (k : string) : value := default VNone (d !! k).

Definition of_optional (o : option string) : value :=
  match o with Some s => VStr s | None => VNone end.

(** Truth value of an [Optional[str]]: [None] and the empty string are false. *)
Definition truthy (o : option string) : bool :=
  match o with
  | Some (String _ _) => true
  | _ => false
  end.

(** [str.lower] on the ASCII letters (no other character lowers to one). *)
Definition lower_ascii (c : ascii) : ascii :=
  let n := N_of_ascii c in
  if ((65 <=? n) && (n <=? 90))%N then ascii_of_N (n + 32) else c.

Fixpoint lower (s : string) : string :=
  match s with
  | EmptyString => EmptyString
  | String c s' => String (lower_ascii c) (lower s')
  end.

(** Pure code that may raise. *)
Definition and_then {A B} (r : result A) (k : A -> result B) : result B :=
  match r with
  | Return a => k a
  | Raise e => Raise e
  end.

Notation "'check' x <- r 'in' k" := (and_then r (fun x => k))
  (at level 100, x name, r at next level, right associativity).

Definition lift {A} (r : result A) : M A := fun d => (r, d).

Fixpoint map_result {A B} (f : A -> result B) (l : list A) : result (list B) :=
  match l with
  | [] => Return []
  | a :: l' => check b <- f a in check bs <- map_result f l' in Return (b :: bs)
  end.

(** ** pydantic field validation, for the shapes of value that occur *)

Definition field_str (v : option value) : result string :=
  match v with
  | Some (VStr s) => Return s
  | _ => Raise ValidationError
  end.

Definition field_optional_str (v : option value) : result (option string) :=
  match v with
  | None | Some VNone => Return None
  | Some (VStr s) => Return (Some s)
  | Some _ => Raise ValidationError
  end.

Definition field_bools (v : option value) : result (list bool) :=
  match v with
  | None => Return []
  | Some (VBools l) => Return l
  | Some _ => Raise ValidationError
  end.

(** An [int] field with a default and optional [ge]/[le] bounds.  Only an
    integer is accepted here: pydantic would also convert a numeric string
    to an integer, a case the handlers never produce (they pass the integers
    of a dump or of a literal). *)
Definition field_int (dflt : Z) (ge le : option Z) (v : option value) : result Z :=
  match v with
  | None => Return dflt
  | Some (VInt n) =>
      if match ge with Some b => (b <=? n)%Z | None => true end
         && match le with Some b => (n <=? b)%Z | None => true end
      then Return n else Raise ValidationError
  | Some _ => Raise ValidationError
  end.

(** ** [schemas.py] *)

Module Business.
Record t := Make {
  name : string;
  category : string;
  location : string;
  website : option string;
  description : option string;
  eco_checks : list bool;
  logo_url : option string;
  eco_score : Z;
  hero_image : option string
}.

(** The constructor applied to the keyword arguments [data]. *)
Definition validate (data : pydict) : result t :=
  check name <- field_str (data !! "name") in
  check category <- field_str (data !! "category") in
  check location <- field_str (data !! "location") in
  check website <- field_optional_str (data !! "website") in
  check description <- field_optional_str (data !! "description") in
  check eco_checks <- field_bools (data !! "eco_checks") in
  check logo_url <- field_optional_str (data !! "logo_url") in
  check eco_score <- field_int 80 (Some 0) (Some 100) (data !! "eco_score") in
  check hero_image <- field_optional_str (data !! "hero_image") in
  Return (Make name category location website description eco_checks
               logo_url eco_score hero_image).

Definition model_dump (b : t) : pydict :=
  <["name" := VStr (name b)]>
  (<["category" := VStr (category b)]>
  (<["location" := VStr (location b)]>
  (<["website" := of_optional (website b)]>
  (<["description" := of_optional (description b)]>
  (<["eco_checks" := VBools (eco_checks b)]>
  (<["logo_url" := of_optional (logo_url b)]>
  (<["eco_score" := VInt (eco_score b)]>
  (<["hero_image" := of_optional (hero_image b)]> ∅)))))))).
End Business.

Module Visit.
Record t := Make {
  user_id : string;
  business_id : string;
  business_name : string;
  category : string;
  location : string;
  eco_points : Z
}.

(** The constructor applied to the keyword arguments [kwargs]. *)
Definition validate (kwargs : pydict) : result t :=
  check user_id <- field_str (kwargs !! "user_id") in
  check business_id <- field_str (kwargs !! "business_id") in
  check business_name <- field_str (kwargs !! "business_name") in
  check category <- field_str (kwargs !! "category") in
  check location <- field_str (kwargs !! "location") in
  check eco_points <- field_int 10 None None (kwargs !! "eco_points") in
  Return (Make user_id business_id business_name category location eco_points).

Definition model_dump (v : t) : pydict :=
  <["user_id" := VStr (user_id v)]>
  (<["business_id" := VStr (business_id v)]>
  (<["business_name" := VStr (business_name v)]>
  (<["category" := VStr (category v)]>
  (<["location" := VStr (location v)]>
  (<["eco_points" := VInt (eco_points v)]> ∅))))).
End Visit.

Module Impact.
Record t := Make {
  user_id : string;
  username : string;
  visits : Z;
  eco_points : Z;
  community_impact : Z;
  terra_level : Z
}.

(** [Impact(user_id=..., username=...)]: the counters take their
    defaults. *)
Definition new (user_id username : string) : t := Make user_id username 0 0 0 0.

Definition model_dump (i : t) : pydict :=
  <["user_id" := VStr (user_id i)]>
  (<["username" := VStr (username i)]>
  (<["visits" := VInt (visits i)]>
  (<["eco_points" := VInt (eco_points i)]>
  (<["community_impact" := VInt (community_impact i)]>
  (<["terra_level" := VInt (terra_level i)]> ∅))))).
End Impact.

(** ** [main.py]: request schemas *)

Module BusinessCreate.
Record t := Make {
  name : string;
  category : string;
  location : string;
  website : option string;
  description : option string;
  eco_checks : list bool;
  logo_url : option string
}.

Definition model_dump (p : t) : pydict :=
  <["name" := VStr (name p)]>
  (<["category" := VStr (category p)]>
  (<["location" := VStr (location p)]>
  (<["website" := of_optional (website p)]>
  (<["description" := of_optional (description p)]>
  (<["eco_checks" := VBools (eco_checks p)]>
  (<["logo_url" := of_optional (logo_url p)]> ∅)))))).
End BusinessCreate.

Module VisitCreate.
Record t := Make {
  user_id : string;
  username : string;
  business_id : string
}.
End VisitCreate.

(** ** [main.py]: utilities *)

Definition to_obj_id (id_str : string) : result string :=
  match ObjectId.parse id_str with
  | Some o => Return o
  | None => Raise (HTTPException 400 "Invalid id")
  end.

(** [doc["id"] = str(doc.pop("_id"))].  The [_id] of a document of the
    store is an [ObjectId] (see [to_dict]), and [str] is modelled for it
    alone: for an [_id] of another kind the code answers with the [str] of
    that value, which this definition does not render; that branch is not
    reached from the handlers. *)
Definition business_doc_to_response (doc : pydict) : result pydict :=
  match doc !! "_id" with
  | Some (VOid o) => Return (<["id" := VStr (ObjectId.str o)]> (delete "_id" doc))
  | Some _ => Raise TypeError
  | None => Raise KeyError
  end.

(** ** [main.py]: routes *)

(** A handler takes the module-level handle [db] and gives back what it
    returns or raises, and the handle. *)
Definition handler (A : Type) : Type := option database -> result A * option database.

Definition run {A} (m : M A) (d : database) : result A * option database :=
  let (r, d') := m d in (r, Some d').

(** The body [{"impact": imp}] of the answer to [POST /api/visits]. *)
Record impact_body := ImpactBody { body_impact : pydict }.

(** Stable insertion sort, largest key first: the cursor's
    [sort("created_at", -1)]. *)
Fixpoint insert_desc (key : document -> nat) (x : document) (l : list document)
  : list document :=
  match l with
  | [] => [x]
  | y :: l' => if (key y <? key x)%nat then x :: l else y :: insert_desc key x l'
  end.

Definition sort_desc (key : document -> nat) (l : list document) : list document :=
  foldr (insert_desc key) [] l.

(** The sort key of a document: a missing [created_at] sorts as the least
    value. *)
Definition created_at_key (d : document) : nat :=
  match doc_fields d !! "created_at" with
  | Some (VTime t) => S t
  | _ => O
  end.

Section Directory.

(** MongoDB's [$regex] operator.  [regex_compile pattern options] is the
    matcher of a pattern the server accepts ([m subject] tells whether the
    pattern is found in the subject), and [None] for a pattern that is not a
    valid regular expression: the server refuses the query, and pymongo
    raises [OperationFailure], whatever the collection holds. *)
Variable regex_compile : string -> string -> option (string -> bool).

(** [GET /api/businesses] *)
Definition list_businesses (search category : option string) : handler (list pydict) :=
  fun db =>
    match db with
    | None => (Return [], None)
    | Some d =>
        let q : query :=
          match category with
          | Some c =>
              if truthy category && negb (String.eqb (lower c) "all")
              then [("category", VStr c)] else []
          | None => []
          end in
        let name_matches : result (document -> bool) :=
          match search with
          | Some pat =>
              if truthy search then
                match regex_compile pat "i" with
                | Some m =>
                    Return (fun doc =>
                              match to_dict doc !! "name" with
                              | Some (VStr s) => m s
                              | _ => false
                              end)
                | None => Raise OperationFailure
                end
              else Return (fun _ => true)
          | None => Return (fun _ => true)
          end in
        match name_matches with
        | Raise e => (Raise e, Some d)
        | Return name_matches =>
            let docs :=
              take 100 (List.filter (fun doc => matches q doc && name_matches doc)
                                    (business d)) in
            (map_result business_doc_to_response (List.map to_dict docs), Some d)
        end
    end.

End Directory.

(** [GET /api/businesses/{business_id}] *)
Definition get_business (business_id : string) : handler pydict :=
  fun db =>
    match db with
    | None => (Raise (HTTPException 500 "Database not available"), None)
    | Some d =>
        run (oid <- lift (to_obj_id business_id) ;;
             d <- find_one c_business [("_id", VOid oid)] ;;
             match d with
             | None => raise (HTTPException 404 "Business not found")
             | Some d => lift (business_doc_to_response d)
             end) d
    end.

(** [POST /api/businesses].  With no database, [create_document] has no
    store to write to and the request fails. *)
Definition register_business (payload : BusinessCreate.t) : handler pydict :=
  fun db =>
    let data := BusinessCreate.model_dump payload in
    let checks := match data !! "eco_checks" with
                  | Some (VBools l) => l
                  | _ => []
                  end in
    let data := match checks with
                | [] => data
                | _ :: _ =>
                    <["eco_score" :=
                        VInt (60 + Z.of_nat (length (List.filter (fun c => c) checks)) * 8)]>
                      data
                end in
    match Business.validate data with
    | Raise e => (Raise e, db)
    | Return b =>
        match db with
        | None => (Raise Unavailable, None)
        | Some d =>
            run (bid <- create_document c_business (Business.model_dump b) ;;
                 oid <- lift (match ObjectId.parse bid with
                              | Some o => Return o
                              | None => Raise InvalidId
                              end) ;;
                 d <- find_one c_business [("_id", VOid oid)] ;;
                 match d with
                 | Some d => lift (business_doc_to_response d)
                 | None => raise AttributeError
                 end) d
        end
    end.

(** [username or "Guest"]. *)
Definition or_guest (username : option string) : string :=
  match username with
  | Some s => if truthy username then s else "Guest"
  | None => "Guest"
  end.

(** [GET /api/users/{user_id}/impact] *)
Definition get_impact (user_id : string) (username : option string) : handler pydict :=
  fun db =>
    match db with
    | None => (Return (Impact.model_dump (Impact.new user_id (or_guest username))), None)
    | Some d =>
        run (doc <- find_one c_impact [("user_id", VStr user_id)] ;;
             match doc with
             | None =>
                 let impact := Impact.new user_id (or_guest username) in
                 _ <- create_document c_impact (Impact.model_dump impact) ;;
                 ret (Impact.model_dump impact)
             | Some doc => ret (delete "_id" doc)
             end) d
    end.

(** [GET /api/users/{user_id}/visits] *)
Definition get_user_visits (user_id : string) : handler (list pydict) :=
  fun db =>
    match db with
    | None => (Return [], None)
    | Some d =>
        let visits :=
          take 100 (sort_desc created_at_key
                      (List.filter (matches [("user_id", VStr user_id)]) (visit d))) in
        (map_result business_doc_to_response (List.map to_dict visits), Some d)
    end.

(** The tiers of [log_visit]. *)
Definition level_of_visits (visits : Z) : Z :=
  if visits >=? 20 then 3
  else if visits >=? 10 then 2
  else if visits >=? 3 then 1
  else 0.

(** [POST /api/visits] *)
Definition log_visit (payload : VisitCreate.t) : handler impact_body :=
  fun db =>
    match db with
    | None => (Raise (HTTPException 500 "Database not available"), None)
    | Some d =>
        let user := [("user_id", VStr (VisitCreate.user_id payload))] in
        run (oid <- lift (to_obj_id (VisitCreate.business_id payload)) ;;
             bdoc <- find_one c_business [("_id", VOid oid)] ;;
             match bdoc with
             | None => raise (HTTPException 404 "Business not found")
             | Some bdoc =>
                 visit <- lift (Visit.validate
                   (<["user_id" := VStr (VisitCreate.user_id payload)]>
                   (<["business_id" := VStr (VisitCreate.business_id payload)]>
                   (<["business_name" := get bdoc "name"]>
                   (<["category" := get bdoc "category"]>
                   (<["location" := get bdoc "location"]>
                   (<["eco_points" := VInt 10]> ∅))))))) ;;
                 _ <- create_document c_visit (Visit.model_dump visit) ;;
                 let inc :=
                   Update [("user_id", VStr (VisitCreate.user_id payload));
                           ("username", VStr (VisitCreate.username payload))]
                          [("visits", 1);
                           ("eco_points", Visit.eco_points visit);
                           ("community_impact", 1)]
                          [] in
                 update_one c_impact user inc true ;;;
                 imp <- find_one c_impact user ;;
                 match imp with
                 | None => raise AttributeError
                 | Some imp =>
                     visits <- match imp !! "visits" with
                               | None => ret 0
                               | Some (VInt n) => ret n
                               | Some _ => raise TypeError
                               end ;;
                     let level := level_of_visits visits in
                     update_one c_impact user
                       (Update [] [] [("terra_level", VInt level)]) false ;;;
                     imp <- find_one c_impact user ;;
                     match imp with
                     | None => raise AttributeError
                     | Some imp => ret (ImpactBody (delete "_id" imp))
                     end
                 end
             end) d
    end.

(** ** Vocabulary of the properties *)

Definition by_id (o : string) : query := [("_id", VOid o)].
Definition by_user (user_id : string) : query := [("user_id", VStr user_id)].

(** The Business a [business_id] resolves to, if any. *)
Definition lookup_business (d : database) (business_id : string) : option document :=
  match ObjectId.parse business_id with
  | Some o => List.find (matches (by_id o)) (business d)
  | None => None
  end.

(** The Impact record of a user: the document the handlers find. *)
Definition impact_of (d : database) (user_id : string) : option document :=
  List.find (matches (by_user user_id)) (impact d).

Definition is_str (v : option value) : bool :=
  match v with
  | Some (VStr _) => true
  | _ => false
  end.

(** A document of the [business] collection with the fields a visit copies. *)
Definition business_fields (bdoc : document) : bool :=
  is_str (doc_fields bdoc !! "name")
  && is_str (doc_fields bdoc !! "category")
  && is_str (doc_fields bdoc !! "location").

(** The identifier the driver generates next is not in use in a collection. *)
Definition oid_unused (c : collection) (d : database) : bool :=
  forallb (fun doc => negb (String.eqb (doc_id doc) (ObjectId.generate (oid_counter d))))
          (get_coll c d).

(** The fields of an Impact record. *)
Definition impact_record (user_id username : string)
    (visits eco_points community_impact terra_level : Z) : pydict :=
  Impact.model_dump
    (Impact.Make user_id username visits eco_points community_impact terra_level).

(** The counters of an Impact document agree: [community_impact = visits]. *)
Definition counters_agree (doc : document) : Prop :=
  exists n : Z,
    doc_fields doc !! "visits" = Some (VInt n)
    /\ doc_fields doc !! "community_impact" = Some (VInt n).

(** The states a database whose [impact] collection starts empty can reach
    through the handlers that write. *)
Inductive reachable : database -> Prop :=
| reach_init d :
    impact d = [] -> reachable d
| reach_log_visit d payload r d' :
    reachable d -> log_visit payload (Some d) = (r, Some d') -> reachable d'
| reach_get_impact d user_id username r d' :
    reachable d -> get_impact user_id username (Some d) = (r, Some d') -> reachable d'
| reach_register_business d payload r d' :
    reachable d -> register_business payload (Some d) = (r, Some d') -> reachable d'.

(** ** Vocabulary of the proofs *)

(** The update document [inc] of [log_visit]: a visit is worth 10 points. *)
Definition counters_inc (user_id username : string) : update :=
  Update [("user_id", VStr user_id); ("username", VStr username)]
         [("visits", 1); ("eco_points", 10); ("community_impact", 1)]
         [].

(** The update document that stores the recomputed level. *)
Definition level_set (level : Z) : update :=
  Update [] [] [("terra_level", VInt level)].

(** The document [log_visit] stores in [visit] for a business with the given
    name, category and location. *)
Definition visit_doc (p : VisitCreate.t) (nm cat loc : string) (d : database) : document :=
  Document (ObjectId.generate (oid_counter d))
    (<["created_at" := VTime (clock d)]>
       (Visit.model_dump
          (Visit.Make (VisitCreate.user_id p) (VisitCreate.business_id p) nm cat loc 10))).

(** The state after a visit was stored and the impact collection became [imp]. *)
Definition visit_logged (p : VisitCreate.t) (nm cat loc : string) (d : database)
    (imp : list document) (next : N) : database :=
  Database (business d) (visit d ++ [visit_doc p nm cat loc d]) imp next (S (clock d)).

(** The ways a [log_visit] on an open database ends: it fails before it
    writes; it creates the user's record; the increment is refused after the
    visit was stored; or it updates the user's record. *)
Inductive log_visit_path (p : VisitCreate.t) (d : database)
  : result impact_body -> database -> Prop :=
| path_failed e :
    log_visit_path p d (Raise e) d
| path_first nm cat loc :
    impact_of d (VisitCreate.user_id p) = None ->
    let rec := impact_record (VisitCreate.user_id p) (VisitCreate.username p) 1 10 1 0 in
    log_visit_path p d (Return (ImpactBody rec))
      (visit_logged p nm cat loc d
         (impact d ++ [Document (ObjectId.generate (N.succ (oid_counter d))) rec])
         (N.succ (N.succ (oid_counter d))))
| path_write_error nm cat loc :
    log_visit_path p d (Raise WriteError)
      (visit_logged p nm cat loc d (impact d) (N.succ (oid_counter d)))
| path_again nm cat loc l1 old l2 f' n :
    impact d = l1 ++ old :: l2 ->
    List.find (matches (by_user (VisitCreate.user_id p))) l1 = None ->
    matches (by_user (VisitCreate.user_id p)) old = true ->
    apply_update (counters_inc (VisitCreate.user_id p) (VisitCreate.username p))
                 (doc_fields old) = Some f' ->
    f' !! "visits" = Some (VInt n) ->
    let f'' := <["terra_level" := VInt (level_of_visits n)]> f' in
    log_visit_path p d (Return (ImpactBody (delete "_id" f'')))
      (visit_logged p nm cat loc d (l1 ++ Document (doc_id old) f'' :: l2)
         (N.succ (oid_counter d))).

(** The record [register_business] stores for a payload, given its score. *)
Definition registered (p : BusinessCreate.t) (eco_score : Z) : Business.t :=
  Business.Make (BusinessCreate.name p) (BusinessCreate.category p)
    (BusinessCreate.location p) (BusinessCreate.website p)
    (BusinessCreate.description p) (BusinessCreate.eco_checks p)
    (BusinessCreate.logo_url p) eco_score None.

(** The number of true entries of a checklist. *)
Definition count_true (checks : list bool) : Z :=
  Z.of_nat (length (List.filter (fun c => c) checks)).

(** The score [register_business] gives a payload. *)
Definition score_of (p : BusinessCreate.t) : Z :=
  match BusinessCreate.eco_checks p with
  | [] => 80
  | _ :: _ => 60 + count_true (BusinessCreate.eco_checks p) * 8
  end.

(** Code that leaves the [impact] collection as it is. *)
Definition keeps_impact {A} (m : M A) : Prop :=
  forall d r d', m d = (r, d') -> impact d' = impact d.

(** A stored document as the directory and visit endpoints answer it. *)
Definition response_of (doc : document) : pydict :=
  <["id" := VStr (ObjectId.str (doc_id doc))]> (delete "_id" (to_dict doc)).

(** ** A small store to run the handlers on *)

(** One of the businesses of [SAMPLE_BUSINESSES], and a database that holds
    it: its [_id] is the first identifier generated. *)
Definition green_grove : Business.t :=
  Business.Make "Green Grove Grocers" "Groceries" "Riverside"
    (Some "https://greengrove.example")
    (Some "Organic produce, refill station, zero-waste aisle.")
    [true; true; true; true; true] None 88 None.

Definition seeded : database :=
  Database
    [Document (ObjectId.generate 0)
       (<["created_at" := VTime 0]> (Business.model_dump green_grove))]
    [] [] 1 1.

Definition green_grove_id : string := "000000000000000000000000".

(** The state of [seeded] after "u1" logged one visit as "alice". *)
Definition seeded_visited : database :=
  Database (business seeded)
    [visit_doc (VisitCreate.Make "u1" "alice" green_grove_id)
       "Green Grove Grocers" "Groceries" "Riverside" seeded]
    [Document (ObjectId.generate 2) (impact_record "u1" "alice" 1 10 1 0)]
    3 2.

(** ** [main.py]: seeds *)

(** A literal of [SAMPLE_BUSINESSES]; [logo_url] and [hero_image] are [None]
    in all of them. *)
Definition sample (name category location website description : string)
    (eco_checks : list bool) (eco_score : Z) : pydict :=
  <["name" := VStr name]>
  (<["category" := VStr category]>
  (<["location" := VStr location]>
  (<["website" := VStr website]>
  (<["description" := VStr description]>
  (<["eco_checks" := VBools eco_checks]>
  (<["logo_url" := VNone]>
  (<["eco_score" := VInt eco_score]>
  (<["hero_image" := VNone]> ∅)))))))).

Definition SAMPLE_BUSINESSES : list pydict :=
  [ sample "Leaf & Latte Café" "Cafés" "Downtown" "https://leaflatte.example"
      "Plant-forward menu, compostable packaging, local roasters."
      [true; true; true; true; false] 92;
    sample "Green Grove Grocers" "Groceries" "Riverside" "https://greengrove.example"
      "Organic produce, refill station, zero-waste aisle."
      [true; true; true; true; true] 88;
    sample "Willow Wellness Studio" "Wellness" "Old Town" "https://willowwellness.example"
      "Mindful movement with eco mats and clean air systems."
      [true; false; true; true; true] 84;
    sample "Harvest Hill Farm" "Farms" "Foothills" "https://harvesthill.example"
      "Regenerative agriculture and weekly harvest boxes."
      [true; true; true; false; true] 95;
    sample "Local Loop Shop" "Local Shops" "Market Street" "https://localloop.example"
      "Circular design goods and repair-friendly products."
      [true; true; false; true; true] 90 ].

(** A [for] loop over a list. *)
Fixpoint for_each {A} (l : list A) (body : A -> M unit) : M unit :=
  match l with
  | [] => ret tt
  | a :: l' => body a ;;; for_each l' body
  end.

(** The startup hook. *)
Definition seed_data : handler unit :=
  fun db =>
    match db with
    | None => (Return tt, None)
    | Some d =>
        if (length (business d) =? 0)%nat then
          run (for_each SAMPLE_BUSINESSES
                 (fun b =>
                    s <- lift (Business.validate b) ;;
                    _ <- create_document c_business (Business.model_dump s) ;;
                    ret tt)) d
        else (Return tt, Some d)
    end.

(** ** Vocabulary of further properties *)

(** Every way a [log_visit] on an open database ends, with what decides it. *)
Inductive log_visit_outcome (p : VisitCreate.t) (d : database)
  : result impact_body -> database -> Prop :=
| outcome_invalid :
    ObjectId.parse (VisitCreate.business_id p) = None ->
    log_visit_outcome p d (Raise (HTTPException 400 "Invalid id")) d
| outcome_notfound o :
    ObjectId.parse (VisitCreate.business_id p) = Some o ->
    lookup_business d (VisitCreate.business_id p) = None ->
    log_visit_outcome p d (Raise (HTTPException 404 "Business not found")) d
| outcome_rejected bdoc :
    lookup_business d (VisitCreate.business_id p) = Some bdoc ->
    business_fields bdoc = false ->
    log_visit_outcome p d (Raise ValidationError) d
| outcome_first bdoc nm cat loc :
    lookup_business d (VisitCreate.business_id p) = Some bdoc ->
    doc_fields bdoc !! "name" = Some (VStr nm) ->
    doc_fields bdoc !! "category" = Some (VStr cat) ->
    doc_fields bdoc !! "location" = Some (VStr loc) ->
    impact_of d (VisitCreate.user_id p) = None ->
    let rec := impact_record (VisitCreate.user_id p) (VisitCreate.username p) 1 10 1 0 in
    log_visit_outcome p d (Return (ImpactBody rec))
      (visit_logged p nm cat loc d
         (impact d ++ [Document (ObjectId.generate (N.succ (oid_counter d))) rec])
         (N.succ (N.succ (oid_counter d))))
| outcome_write_error bdoc nm cat loc l1 old l2 :
    lookup_business d (VisitCreate.business_id p) = Some bdoc ->
    doc_fields bdoc !! "name" = Some (VStr nm) ->
    doc_fields bdoc !! "category" = Some (VStr cat) ->
    doc_fields bdoc !! "location" = Some (VStr loc) ->
    impact d = l1 ++ old :: l2 ->
    List.find (matches (by_user (VisitCreate.user_id p))) l1 = None ->
    matches (by_user (VisitCreate.user_id p)) old = true ->
    apply_update (counters_inc (VisitCreate.user_id p) (VisitCreate.username p))
                 (doc_fields old) = None ->
    log_visit_outcome p d (Raise WriteError)
      (visit_logged p nm cat loc d (impact d) (N.succ (oid_counter d)))
| outcome_again bdoc nm cat loc l1 old l2 f' n :
    lookup_business d (VisitCreate.business_id p) = Some bdoc ->
    doc_fields bdoc !! "name" = Some (VStr nm) ->
    doc_fields bdoc !! "category" = Some (VStr cat) ->
    doc_fields bdoc !! "location" = Some (VStr loc) ->
    impact d = l1 ++ old :: l2 ->
    List.find (matches (by_user (VisitCreate.user_id p))) l1 = None ->
    matches (by_user (VisitCreate.user_id p)) old = true ->
    apply_update (counters_inc (VisitCreate.user_id p) (VisitCreate.username p))
                 (doc_fields old) = Some f' ->
    f' !! "visits" = Some (VInt n) ->
    let f'' := <["terra_level" := VInt (level_of_visits n)]> f' in
    log_visit_outcome p d (Return (ImpactBody (delete "_id" f'')))
      (visit_logged p nm cat loc d (l1 ++ Document (doc_id old) f'' :: l2)
         (N.succ (oid_counter d))).

(** The counters of an Impact document are those of some number [n] of
    visits: 10 points a visit, and the level of [n]. *)
Definition well_counted (doc : document) : Prop :=
  exists n : Z,
    0 <= n
    /\ doc_fields doc !! "visits" = Some (VInt n)
    /\ doc_fields doc !! "eco_points" = Some (VInt (10 * n))
    /\ doc_fields doc !! "community_impact" = Some (VInt n)
    /\ doc_fields doc !! "terra_level" = Some (VInt (level_of_visits n))
    /\ 0 <= level_of_visits n <= 3.

(** The number of Visit documents stored for a user. *)
Definition count_visits (d : database) (user_id : string) : nat :=
  length (List.filter (matches (by_user user_id)) (visit d)).

(** The [visits] counter of each user's Impact record is the number of the
    user's stored visits, and a user with no record has no stored visit. *)
Definition visits_counted (d : database) : Prop :=
  forall user_id : string,
    match impact_of d user_id with
    | Some doc =>
        doc_fields doc !! "visits" = Some (VInt (Z.of_nat (count_visits d user_id)))
    | None => count_visits d user_id = O
    end.

(** The states a database with no visits and no Impact records can reach
    through the handlers that write. *)
Inductive reachable_from_empty : database -> Prop :=
| empty_init d :
    visit d = [] -> impact d = [] -> reachable_from_empty d
| empty_log_visit d payload r d' :
    reachable_from_empty d -> log_visit payload (Some d) = (r, Some d') ->
    reachable_from_empty d'
| empty_get_impact d user_id username r d' :
    reachable_from_empty d -> get_impact user_id username (Some d) = (r, Some d') ->
    reachable_from_empty d'
| empty_register_business d payload r d' :
    reachable_from_empty d -> register_business payload (Some d) = (r, Some d') ->
    reachable_from_empty d'.

(** Documents in the order of [sort("created_at", -1)]: no document is
    followed by one with a greater key. *)
Definition newest_first (docs : list document) : Prop :=
  StronglySorted (fun a b => (created_at_key b <= created_at_key a)%nat) docs.

(** ** More stores to run the handlers on *)

(** A store in which the Impact record of "u1" holds a string under
    [visits]. *)
Definition seeded_corrupt : database :=
  Database (business seeded) []
    [Document (ObjectId.generate 1)
       (<["visits" := VStr "many"]> (impact_record "u1" "alice" 0 0 0 0))]
    2 1.

(** A payload with four checks out of five, the record it is stored as next
    to the one of [seeded], and the answer to its registration. *)
Definition local_loop : BusinessCreate.t :=
  BusinessCreate.Make "Local Loop Shop" "Local Shops" "Market Street" None None
    [true; true; false; true; true] None.

Definition local_loop_stored : pydict :=
  <["created_at" := VTime 1]> (Business.model_dump (registered local_loop 92)).

Definition seeded_local_loop : database :=
  Database (business seeded ++ [Document (ObjectId.generate 1) local_loop_stored])
    [] [] 2 2.

Definition local_loop_response : pydict :=
  <["id" := VStr (ObjectId.str (ObjectId.generate 1))]> local_loop_stored.

(** A regular-expression engine to run the listing on: it refuses the
    pattern "(" and finds every other pattern in every name. *)
Definition lenient_regex (pattern options : string) : option (string -> bool) :=
  if String.eqb pattern "(" then None else Some (fun _ => true).

(** * Proofs *)

(** ** ObjectId: the string form parses back *)

Lemma fromhex_byte (b : ascii) (rest : string) :
  ObjectId.fromhex
    (String (ObjectId.hex_digit (N_of_ascii b / 16))
       (String (ObjectId.hex_digit (N_of_ascii b mod 16)) rest))
  = match ObjectId.fromhex rest with
    | Some bs => Some (String b bs)
    | None => None
    end.
Proof.
  destruct b as [[] [] [] [] [] [] [] []]; reflexivity.
Qed.

Lemma fromhex_hexlify (bs : string) :
  ObjectId.fromhex (ObjectId.hexlify bs) = Some bs.
Proof.
  induction bs as [|b bs IH]; [reflexivity|].
  change (ObjectId.hexlify (String b bs))
    with (String (ObjectId.hex_digit (N_of_ascii b / 16))
            (String (ObjectId.hex_digit (N_of_ascii b mod 16)) (ObjectId.hexlify bs))).
  rewrite fromhex_byte, IH. reflexivity.
Qed.

Lemma length_hexlify (bs : string) :
  String.length (ObjectId.hexlify bs) = (2 * String.length bs)%nat.
Proof.
  induction bs as [|b bs IH]; [reflexivity|].
  change (String.length (ObjectId.hexlify (String b bs)))
    with (S (S (String.length (ObjectId.hexlify bs)))).
  rewrite IH. simpl. lia.
Qed.

Lemma length_generate (n : N) : String.length (ObjectId.generate n) = 12%nat.
Proof. reflexivity. Qed.

Lemma parse_str_generate (n : N) :
  ObjectId.parse (ObjectId.str (ObjectId.generate n)) = Some (ObjectId.generate n).
Proof.
  unfold ObjectId.parse, ObjectId.str.
  rewrite length_hexlify, length_generate. simpl Nat.eqb.
  apply fromhex_hexlify.
Qed.

(** ** Lists of documents *)

Lemma find_split {A} (p : A -> bool) (l : list A) (x : A) :
  List.find p l = Some x ->
  exists l1 l2 : list A, l = (l1 ++ x :: l2)%list /\ List.find p l1 = None /\ p x = true.
Proof.
  induction l as [|a l IH]; simpl; [discriminate|].
  destruct (p a) eqn:Ha.
  - intros [= ->]. exists [], l. auto.
  - intros H. destruct (IH H) as (l1 & l2 & -> & Hn & Hp).
    exists (a :: l1), l2. simpl. rewrite Ha. auto.
Qed.

Lemma find_app_none {A} (p : A -> bool) (l1 l : list A) :
  List.find p l1 = None -> List.find p (l1 ++ l) = List.find p l.
Proof.
  induction l1 as [|a l1 IH]; simpl; [reflexivity|].
  destruct (p a); [discriminate|]. exact IH.
Qed.

Lemma find_middle {A} (p : A -> bool) (l1 l2 : list A) (x : A) :
  List.find p l1 = None -> p x = true -> List.find p (l1 ++ x :: l2) = Some x.
Proof.
  intros H1 Hx. rewrite find_app_none by exact H1. simpl. rewrite Hx. reflexivity.
Qed.

Lemma update_first_none q u (l : list document) :
  List.find (matches q) l = None -> update_first q u l = None.
Proof.
  induction l as [|a l IH]; simpl; [reflexivity|].
  destruct (matches q a); [discriminate|].
  intros H. rewrite (IH H). reflexivity.
Qed.

Lemma update_first_middle q u (l1 : list document) d l2 :
  List.find (matches q) l1 = None -> matches q d = true ->
  update_first q u (l1 ++ d :: l2)
  = Some (match apply_update u (doc_fields d) with
          | Some f' => Return (l1 ++ Document (doc_id d) f' :: l2)
          | None => Raise WriteError
          end).
Proof.
  intros H1 Hd. induction l1 as [|a l1 IH]; simpl.
  - rewrite Hd. reflexivity.
  - simpl in H1. destruct (matches q a); [discriminate|].
    rewrite (IH H1). destruct (apply_update u (doc_fields d)); reflexivity.
Qed.

(** ** Running monadic code *)

Lemma bind_Return {A B} (m : M A) (f : A -> M B) d a d1 res :
  m d = (Return a, d1) -> f a d1 = res -> bind m f d = res.
Proof. intros H1 H2. unfold bind. rewrite H1. exact H2. Qed.

Lemma bind_Raise {A B} (m : M A) (f : A -> M B) d e d1 :
  m d = (Raise e, d1) -> bind m f d = (Raise e, d1).
Proof. intros H1. unfold bind. rewrite H1. reflexivity. Qed.

Lemma run_eq {A} (m : M A) d r d' :
  m d = (r, d') -> run m d = (r, Some d').
Proof. intros H. unfold run. rewrite H. reflexivity. Qed.

Ltac db_norm := cbn [set_coll get_coll business visit impact oid_counter clock].
Ltac step_with tac := eapply bind_Return; [tac | db_norm].
Ltac step := step_with ltac:(reflexivity).

(** ** Filters *)

Lemma matches_by_user u d :
  matches (by_user u) d = bool_decide (doc_fields d !! "user_id" = Some (VStr u)).
Proof.
  unfold matches, by_user, to_dict. simpl forallb.
  rewrite lookup_insert_ne by discriminate. apply andb_true_r.
Qed.

Lemma matches_by_id o d :
  matches (by_id o) d = bool_decide (doc_id d = o).
Proof.
  unfold matches, by_id, to_dict. simpl forallb.
  rewrite lookup_insert_eq, andb_true_r.
  apply bool_decide_ext. split; [intros [= ->]; reflexivity | intros ->; reflexivity].
Qed.

Lemma matches_by_user_fields u i f i' f' :
  f' !! "user_id" = f !! "user_id" ->
  matches (by_user u) (Document i' f') = matches (by_user u) (Document i f).
Proof. intros H. rewrite !matches_by_user. simpl. rewrite H. reflexivity. Qed.

Lemma matches_fresh u i (f : pydict) :
  f !! "user_id" = Some (VStr u) -> matches (by_user u) (Document i f) = true.
Proof. intros H. rewrite matches_by_user. apply bool_decide_eq_true_2. exact H. Qed.

(** ** The two updates of [log_visit] *)

Lemma apply_counters_inc u name f :
  apply_update (counters_inc u name) f
  = match numeric (f !! "visits"), numeric (f !! "eco_points"),
          numeric (f !! "community_impact") with
    | Some v, Some e, Some c =>
        Some (<["community_impact" := VInt (c + 1)]>
                (<["eco_points" := VInt (e + 10)]>
                   (<["visits" := VInt (v + 1)]> f)))
    | _, _, _ => None
    end.
Proof.
  unfold apply_update, counters_inc. cbn [u_inc u_set fold_left apply_inc fst snd].
  destruct (numeric (f !! "visits")) as [v|]; [|reflexivity].
  cbn [apply_inc fst snd]. rewrite lookup_insert_ne by discriminate.
  destruct (numeric (f !! "eco_points")) as [e|]; [|reflexivity].
  cbn [apply_inc fst snd]. rewrite !lookup_insert_ne by discriminate.
  destruct (numeric (f !! "community_impact")) as [c|]; reflexivity.
Qed.

Lemma apply_counters_inc_Some u name f f' :
  apply_update (counters_inc u name) f = Some f' ->
  exists v e c,
    numeric (f !! "visits") = Some v /\ numeric (f !! "eco_points") = Some e
    /\ numeric (f !! "community_impact") = Some c
    /\ f' = <["community_impact" := VInt (c + 1)]>
              (<["eco_points" := VInt (e + 10)]> (<["visits" := VInt (v + 1)]> f)).
Proof.
  rewrite apply_counters_inc.
  destruct (numeric (f !! "visits")) as [v|]; [|discriminate].
  destruct (numeric (f !! "eco_points")) as [e|]; [|discriminate].
  destruct (numeric (f !! "community_impact")) as [c|]; [|discriminate].
  intros [= <-]. exists v, e, c. auto.
Qed.

Lemma apply_level_set level f :
  apply_update (level_set level) f = Some (<["terra_level" := VInt level]> f).
Proof. reflexivity. Qed.

Lemma upsert_counters u name :
  upsert_fields (by_user u) (counters_inc u name)
  = Some (<["community_impact" := VInt 1]>
            (<["eco_points" := VInt 10]>
               (<["visits" := VInt 1]>
                  (<["username" := VStr name]> (<["user_id" := VStr u]> ∅))))).
Proof. vm_compute. reflexivity. Qed.

(** ** [log_visit], path by path *)

Lemma business_fields_str bdoc :
  business_fields bdoc = true ->
  exists nm cat loc,
    to_dict bdoc !! "name" = Some (VStr nm)
    /\ to_dict bdoc !! "category" = Some (VStr cat)
    /\ to_dict bdoc !! "location" = Some (VStr loc).
Proof.
  unfold business_fields, to_dict. rewrite !lookup_insert_ne by discriminate.
  destruct (doc_fields bdoc !! "name") as [[]|]; try discriminate.
  destruct (doc_fields bdoc !! "category") as [[]|]; try discriminate.
  destruct (doc_fields bdoc !! "location") as [[]|]; try discriminate.
  eauto 10.
Qed.

Lemma log_visit_invalid p d :
  ObjectId.parse (VisitCreate.business_id p) = None ->
  log_visit p (Some d) = (Raise (HTTPException 400 "Invalid id"), Some d).
Proof.
  intros H. unfold log_visit. apply run_eq.
  eapply bind_Raise. unfold lift, to_obj_id. rewrite H. reflexivity.
Qed.

Lemma log_visit_notfound p d o :
  ObjectId.parse (VisitCreate.business_id p) = Some o ->
  List.find (matches (by_id o)) (business d) = None ->
  log_visit p (Some d) = (Raise (HTTPException 404 "Business not found"), Some d).
Proof.
  intros H1 H2. unfold log_visit. apply run_eq.
  step_with ltac:(unfold lift, to_obj_id; rewrite H1; reflexivity).
  step_with ltac:(unfold find_one; db_norm; fold (by_id o); rewrite H2; reflexivity).
  reflexivity.
Qed.

Lemma log_visit_rejected p d o bdoc :
  ObjectId.parse (VisitCreate.business_id p) = Some o ->
  List.find (matches (by_id o)) (business d) = Some bdoc ->
  business_fields bdoc = false ->
  log_visit p (Some d) = (Raise ValidationError, Some d).
Proof.
  intros H1 H2 Hb. unfold log_visit. apply run_eq.
  step_with ltac:(unfold lift, to_obj_id; rewrite H1; reflexivity).
  step_with ltac:(unfold find_one; db_norm; fold (by_id o); rewrite H2; reflexivity).
  simpl fmap. cbv iota.
  eapply bind_Raise. unfold lift, get. f_equal.
  revert Hb. unfold business_fields, to_dict. rewrite !lookup_insert_ne by discriminate.
  destruct (doc_fields bdoc !! "name") as [[]|]; try reflexivity;
  destruct (doc_fields bdoc !! "category") as [[]|]; try reflexivity;
  destruct (doc_fields bdoc !! "location") as [[]|]; try reflexivity; discriminate.
Qed.

Ltac log_visit_prefix H1 H2 Hn Hc Hl o :=
  unfold log_visit; apply run_eq;
  step_with ltac:(unfold lift, to_obj_id; rewrite H1; reflexivity);
  step_with ltac:(unfold find_one; db_norm; fold (by_id o); rewrite H2; reflexivity);
  simpl fmap; cbv iota;
  step_with ltac:(unfold lift, get; rewrite Hn, Hc, Hl; reflexivity);
  step;
  cbn [Visit.eco_points].

Lemma log_visit_first p d o bdoc nm cat loc :
  ObjectId.parse (VisitCreate.business_id p) = Some o ->
  List.find (matches (by_id o)) (business d) = Some bdoc ->
  to_dict bdoc !! "name" = Some (VStr nm) ->
  to_dict bdoc !! "category" = Some (VStr cat) ->
  to_dict bdoc !! "location" = Some (VStr loc) ->
  impact_of d (VisitCreate.user_id p) = None ->
  let rec := impact_record (VisitCreate.user_id p) (VisitCreate.username p) 1 10 1 0 in
  log_visit p (Some d)
  = (Return (ImpactBody rec),
     Some (Database (business d)
             (visit d ++ [visit_doc p nm cat loc d])
             (impact d ++ [Document (ObjectId.generate (N.succ (oid_counter d))) rec])
             (N.succ (N.succ (oid_counter d)))
             (S (clock d)))).
Proof.
  intros H1 H2 Hn Hc Hl Hu rec. unfold impact_of in Hu.
  log_visit_prefix H1 H2 Hn Hc Hl o.
  fold (by_user (VisitCreate.user_id p)).
  fold (counters_inc (VisitCreate.user_id p) (VisitCreate.username p)).
  step_with ltac:(unfold update_one; db_norm; rewrite (update_first_none _ _ _ Hu);
                  rewrite upsert_counters; reflexivity).
  step_with ltac:(unfold find_one; db_norm; rewrite find_middle;
                  [reflexivity | exact Hu | apply matches_fresh; reflexivity]).
  simpl fmap. cbv iota.
  step.
  fold (level_set (level_of_visits 1)).
  step_with ltac:(unfold update_one; db_norm; rewrite update_first_middle;
                  [rewrite apply_level_set; reflexivity | exact Hu
                  | rewrite matches_by_user; apply bool_decide_eq_true_2; reflexivity]).
  step_with ltac:(unfold find_one; db_norm; rewrite find_middle;
                  [reflexivity | exact Hu | apply matches_fresh; reflexivity]).
  simpl fmap. cbv iota. unfold ret, visit_doc. do 3 f_equal.
Qed.

Lemma counters_inc_user_id u name f f' :
  apply_update (counters_inc u name) f = Some f' ->
  f' !! "user_id" = f !! "user_id".
Proof.
  intros H. destruct (apply_counters_inc_Some _ _ _ _ H) as (v & e & c & _ & _ & _ & ->).
  rewrite !lookup_insert_ne by discriminate. reflexivity.
Qed.

Lemma counters_inc_visits u name f f' :
  apply_update (counters_inc u name) f = Some f' ->
  exists v, numeric (f !! "visits") = Some v /\ f' !! "visits" = Some (VInt (v + 1)).
Proof.
  intros H. destruct (apply_counters_inc_Some _ _ _ _ H) as (v & e & c & Hv & _ & _ & ->).
  exists v. split; [exact Hv|].
  rewrite !lookup_insert_ne by discriminate. apply lookup_insert_eq.
Qed.

Lemma log_visit_again p d o bdoc nm cat loc l1 old l2 f' n :
  ObjectId.parse (VisitCreate.business_id p) = Some o ->
  List.find (matches (by_id o)) (business d) = Some bdoc ->
  to_dict bdoc !! "name" = Some (VStr nm) ->
  to_dict bdoc !! "category" = Some (VStr cat) ->
  to_dict bdoc !! "location" = Some (VStr loc) ->
  impact d = l1 ++ old :: l2 ->
  List.find (matches (by_user (VisitCreate.user_id p))) l1 = None ->
  matches (by_user (VisitCreate.user_id p)) old = true ->
  apply_update (counters_inc (VisitCreate.user_id p) (VisitCreate.username p))
               (doc_fields old) = Some f' ->
  f' !! "visits" = Some (VInt n) ->
  let f'' := <["terra_level" := VInt (level_of_visits n)]> f' in
  log_visit p (Some d)
  = (Return (ImpactBody (delete "_id" f'')),
     Some (Database (business d)
             (visit d ++ [visit_doc p nm cat loc d])
             (l1 ++ Document (doc_id old) f'' :: l2)
             (N.succ (oid_counter d))
             (S (clock d)))).
Proof.
  intros H1 H2 Hn Hc Hl Hi Hl1 Hold Hf' Hv f''.
  assert (Hm' : matches (by_user (VisitCreate.user_id p)) (Document (doc_id old) f') = true).
  { rewrite <- Hold. destruct old as [i f]. apply matches_by_user_fields.
    apply (counters_inc_user_id _ _ _ _ Hf'). }
  assert (Hm'' : matches (by_user (VisitCreate.user_id p)) (Document (doc_id old) f'') = true).
  { rewrite <- Hm'. apply matches_by_user_fields. unfold f''.
    rewrite lookup_insert_ne by discriminate. reflexivity. }
  log_visit_prefix H1 H2 Hn Hc Hl o.
  fold (by_user (VisitCreate.user_id p)).
  fold (counters_inc (VisitCreate.user_id p) (VisitCreate.username p)).
  step_with ltac:(unfold update_one; db_norm; rewrite Hi, update_first_middle;
                  [rewrite Hf'; reflexivity | exact Hl1 | exact Hold]).
  step_with ltac:(unfold find_one; db_norm; rewrite find_middle;
                  [reflexivity | exact Hl1 | exact Hm']).
  simpl fmap. cbv iota.
  step_with ltac:(unfold to_dict; cbn [doc_fields]; rewrite lookup_insert_ne by discriminate;
                  rewrite Hv; reflexivity).
  fold (level_set (level_of_visits n)).
  step_with ltac:(unfold update_one; db_norm; rewrite update_first_middle;
                  [rewrite apply_level_set; reflexivity | exact Hl1 | exact Hm']).
  cbn [doc_id doc_fields]. fold f''.
  step_with ltac:(unfold find_one; db_norm; rewrite find_middle;
                  [reflexivity | exact Hl1 | exact Hm'']).
  unfold ret, to_dict. cbn [fmap option_fmap option_map doc_id doc_fields].
  rewrite delete_insert_eq. reflexivity.
Qed.

Lemma log_visit_write_error p d o bdoc nm cat loc l1 old l2 :
  ObjectId.parse (VisitCreate.business_id p) = Some o ->
  List.find (matches (by_id o)) (business d) = Some bdoc ->
  to_dict bdoc !! "name" = Some (VStr nm) ->
  to_dict bdoc !! "category" = Some (VStr cat) ->
  to_dict bdoc !! "location" = Some (VStr loc) ->
  impact d = l1 ++ old :: l2 ->
  List.find (matches (by_user (VisitCreate.user_id p))) l1 = None ->
  matches (by_user (VisitCreate.user_id p)) old = true ->
  apply_update (counters_inc (VisitCreate.user_id p) (VisitCreate.username p))
               (doc_fields old) = None ->
  log_visit p (Some d)
  = (Raise WriteError,
     Some (Database (business d)
             (visit d ++ [visit_doc p nm cat loc d])
             (impact d)
             (N.succ (oid_counter d))
             (S (clock d)))).
Proof.
  intros H1 H2 Hn Hc Hl Hi Hl1 Hold Hf'.
  log_visit_prefix H1 H2 Hn Hc Hl o.
  fold (by_user (VisitCreate.user_id p)).
  fold (counters_inc (VisitCreate.user_id p) (VisitCreate.username p)).
  eapply bind_Raise. unfold update_one. db_norm. rewrite Hi, update_first_middle by assumption.
  rewrite Hf'. reflexivity.
Qed.

Lemma log_visit_paths p d :
  exists r d', log_visit p (Some d) = (r, Some d') /\ log_visit_path p d r d'.
Proof.
  destruct (ObjectId.parse (VisitCreate.business_id p)) as [o|] eqn:H1.
  2: { eexists _, _. split; [apply log_visit_invalid; exact H1 | constructor]. }
  destruct (List.find (matches (by_id o)) (business d)) as [bdoc|] eqn:H2.
  2: { eexists _, _. split; [eapply log_visit_notfound; eassumption | constructor]. }
  destruct (business_fields bdoc) eqn:Hb.
  2: { eexists _, _. split; [eapply log_visit_rejected; eassumption | constructor]. }
  destruct (business_fields_str _ Hb) as (nm & cat & loc & Hn & Hc & Hl).
  destruct (impact_of d (VisitCreate.user_id p)) as [old|] eqn:Hu.
  2: { eexists _, _. split; [eapply log_visit_first; eassumption |].
       apply path_first. exact Hu. }
  unfold impact_of in Hu. destruct (find_split _ _ _ Hu) as (l1 & l2 & Hi & Hl1 & Hold).
  destruct (apply_update (counters_inc (VisitCreate.user_id p) (VisitCreate.username p))
                         (doc_fields old)) as [f'|] eqn:Hf'.
  - destruct (counters_inc_visits _ _ _ _ Hf') as (v & _ & Hv).
    eexists _, _. split; [eapply log_visit_again; eassumption |].
    eapply path_again; eassumption.
  - eexists _, _. split; [eapply log_visit_write_error; eassumption |].
    apply path_write_error.
Qed.

Lemma log_visit_inv p d r d' :
  log_visit p (Some d) = (r, Some d') -> log_visit_path p d r d'.
Proof.
  intros H. destruct (log_visit_paths p d) as (r0 & d0 & H0 & Hp).
  rewrite H0 in H. injection H as <- <-. exact Hp.
Qed.

(** ** Impact records *)

Lemma counters_inc_record u name name0 v e c t :
  apply_update (counters_inc u name) (impact_record u name0 v e c t)
  = Some (impact_record u name0 (v + 1) (e + 10) (c + 1) t).
Proof. rewrite apply_counters_inc. vm_compute. reflexivity. Qed.

Lemma level_set_record u name v e c t t' :
  <["terra_level" := VInt t']> (impact_record u name v e c t)
  = impact_record u name v e c t'.
Proof. vm_compute. reflexivity. Qed.

Lemma delete_id_record u name v e c t :
  delete "_id" (impact_record u name v e c t) = impact_record u name v e c t.
Proof. vm_compute. reflexivity. Qed.

Lemma record_lookup u name v e c t :
  impact_record u name v e c t !! "user_id" = Some (VStr u)
  /\ impact_record u name v e c t !! "username" = Some (VStr name)
  /\ impact_record u name v e c t !! "visits" = Some (VInt v)
  /\ impact_record u name v e c t !! "eco_points" = Some (VInt e)
  /\ impact_record u name v e c t !! "community_impact" = Some (VInt c)
  /\ impact_record u name v e c t !! "terra_level" = Some (VInt t)
  /\ impact_record u name v e c t !! "id" = None
  /\ impact_record u name v e c t !! "_id" = None.
Proof. repeat split; reflexivity. Qed.

Lemma matches_record u name v e c t i :
  matches (by_user u) (Document i (impact_record u name v e c t)) = true.
Proof. rewrite matches_by_user. apply bool_decide_eq_true_2. reflexivity. Qed.

Lemma log_visit_again_record p d bdoc l1 i name0 v e c t l2 :
  let u := VisitCreate.user_id p in
  lookup_business d (VisitCreate.business_id p) = Some bdoc ->
  business_fields bdoc = true ->
  impact d = l1 ++ Document i (impact_record u name0 v e c t) :: l2 ->
  List.find (matches (by_user u)) l1 = None ->
  let rec := impact_record u name0 (v + 1) (e + 10) (c + 1) (level_of_visits (v + 1)) in
  exists dv next,
    log_visit p (Some d)
    = (Return (ImpactBody rec),
       Some (Database (business d) dv (l1 ++ Document i rec :: l2) next (S (clock d)))).
Proof.
  intros u Hb Hf Hi Hl1 rec. unfold lookup_business in Hb.
  destruct (ObjectId.parse (VisitCreate.business_id p)) as [o|] eqn:H1; [|discriminate].
  destruct (business_fields_str _ Hf) as (nm & cat & loc & Hn & Hc & Hl).
  eexists _, _.
  erewrite log_visit_again; try eassumption.
  - rewrite level_set_record, delete_id_record. reflexivity.
  - apply matches_record.
  - apply counters_inc_record.
  - apply record_lookup.
Qed.

Lemma seeded_lookup :
  lookup_business seeded green_grove_id
  = Some (Document (ObjectId.generate 0)
            (<["created_at" := VTime 0]> (Business.model_dump green_grove))).
Proof. vm_compute. reflexivity. Qed.

Lemma log_visit_first_record p d bdoc :
  let u := VisitCreate.user_id p in
  lookup_business d (VisitCreate.business_id p) = Some bdoc ->
  business_fields bdoc = true ->
  impact_of d u = None ->
  let rec := impact_record u (VisitCreate.username p) 1 10 1 0 in
  exists dv,
    log_visit p (Some d)
    = (Return (ImpactBody rec),
       Some (Database (business d) dv
               (impact d ++ [Document (ObjectId.generate (N.succ (oid_counter d))) rec])
               (N.succ (N.succ (oid_counter d))) (S (clock d)))).
Proof.
  intros u Hb Hf Hu rec. unfold lookup_business in Hb.
  destruct (ObjectId.parse (VisitCreate.business_id p)) as [o|] eqn:H1; [|discriminate].
  destruct (business_fields_str _ Hf) as (nm & cat & loc & Hn & Hc & Hl).
  eexists. eapply log_visit_first; eassumption.
Qed.

Lemma lookup_business_same d d' b :
  business d' = business d -> lookup_business d' b = lookup_business d b.
Proof. intros H. unfold lookup_business. rewrite H. reflexivity. Qed.

(** C1: from a state with no Impact record for the user and a directory in
    which the business resolves, three successive [log_visit] calls for
    "alice" all succeed; the third returns the record with [visits = 3],
    [eco_points = 30], [community_impact = 3], [terra_level = 1] and
    [username = "alice"], and that record is the one stored for the user. *)
Theorem log_visit_three_times (d : database) (U B : string) (bdoc : document) :
  lookup_business d B = Some bdoc ->
  business_fields bdoc = true ->
  impact_of d U = None ->
  let payload := VisitCreate.Make U "alice" B in
  exists r1 d1 r2 d2 d3 doc,
    log_visit payload (Some d) = (Return r1, Some d1)
    /\ log_visit payload (Some d1) = (Return r2, Some d2)
    /\ log_visit payload (Some d2)
       = (Return (ImpactBody (impact_record U "alice" 3 30 3 1)), Some d3)
    /\ impact_of d3 U = Some doc
    /\ doc_fields doc = impact_record U "alice" 3 30 3 1.
Proof.
  intros Hb Hf Hu payload.
  destruct (log_visit_first_record payload d bdoc Hb Hf Hu) as (dv1 & E1).
  cbn [VisitCreate.user_id VisitCreate.username payload] in E1.
  set (d1 := Database _ dv1 _ _ _) in E1.
  destruct (log_visit_again_record payload d1 bdoc (impact d)
              (ObjectId.generate (N.succ (oid_counter d))) "alice" 1 10 1 0 [])
    as (dv2 & n2 & E2); try assumption; try reflexivity.
  change (level_of_visits (1 + 1)) with 0 in E2.
  cbn [VisitCreate.user_id Z.add Pos.add Pos.succ] in E2.
  set (d2 := Database _ dv2 _ _ _) in E2.
  destruct (log_visit_again_record payload d2 bdoc (impact d)
              (ObjectId.generate (N.succ (oid_counter d))) "alice" 2 20 2 0 [])
    as (dv3 & n3 & E3); try assumption; try reflexivity.
  change (level_of_visits (2 + 1)) with 1 in E3.
  cbn [VisitCreate.user_id Z.add Pos.add Pos.succ] in E3.
  eexists _, d1, _, d2, _, _.
  split; [exact E1|]. split; [exact E2|]. split; [exact E3|].
  split.
  - unfold impact_of. cbn [impact]. apply find_middle; [exact Hu | apply matches_record].
  - reflexivity.
Qed.

Lemma log_visit_three_times_witness :
  exists r1 d1 r2 d2 d3 doc,
    log_visit (VisitCreate.Make "u1" "alice" green_grove_id) (Some seeded) = (Return r1, Some d1)
    /\ log_visit (VisitCreate.Make "u1" "alice" green_grove_id) (Some d1) = (Return r2, Some d2)
    /\ log_visit (VisitCreate.Make "u1" "alice" green_grove_id) (Some d2)
       = (Return (ImpactBody (impact_record "u1" "alice" 3 30 3 1)), Some d3)
    /\ impact_of d3 "u1" = Some doc
    /\ doc_fields doc = impact_record "u1" "alice" 3 30 3 1.
Proof.
  eapply (log_visit_three_times seeded "u1" green_grove_id); vm_compute; reflexivity.
Defined.

(** ** The tiers *)

Lemma level_of_visits_table (v : Z) :
  level_of_visits v
  = if (v <? 3)%Z then 0 else if (v <? 10)%Z then 1 else if (v <? 20)%Z then 2 else 3.
Proof.
  unfold level_of_visits.
  destruct (Z.geb_spec v 20), (Z.geb_spec v 10), (Z.geb_spec v 3),
           (Z.ltb_spec v 3), (Z.ltb_spec v 10), (Z.ltb_spec v 20); lia.
Qed.

Lemma level_of_visits_mono (v w : Z) :
  v <= w -> level_of_visits v <= level_of_visits w.
Proof.
  intros H. rewrite !level_of_visits_table.
  destruct (Z.ltb_spec v 3), (Z.ltb_spec v 10), (Z.ltb_spec v 20),
           (Z.ltb_spec w 3), (Z.ltb_spec w 10), (Z.ltb_spec w 20); lia.
Qed.

(** C2: the tier of [log_visit] is a total function of the visits count that
    follows the tier table (0 below 3, 1 from 3 to 9, 2 from 10 to 19, 3
    from 20 on), it is monotone, and after a completed [log_visit] the
    stored [terra_level] is this function of the stored, updated [visits]:
    the count the record held before the call plus one, and one for a user
    who had no record or no count. *)
Theorem terra_level_is_tier_of_visits :
  (forall v : Z, 0 <= v ->
     (v < 3 -> level_of_visits v = 0)
     /\ (3 <= v < 10 -> level_of_visits v = 1)
     /\ (10 <= v < 20 -> level_of_visits v = 2)
     /\ (20 <= v -> level_of_visits v = 3))
  /\ (forall v w : Z, 0 <= v -> v <= w -> level_of_visits v <= level_of_visits w)
  /\ (forall payload d r d',
        log_visit payload (Some d) = (Return r, Some d') ->
        exists doc n,
          impact_of d' (VisitCreate.user_id payload) = Some doc
          /\ doc_fields doc !! "visits" = Some (VInt n)
          /\ doc_fields doc !! "terra_level" = Some (VInt (level_of_visits n))
          /\ body_impact r !! "visits" = Some (VInt n)
          /\ body_impact r !! "terra_level" = Some (VInt (level_of_visits n))
          /\ match impact_of d (VisitCreate.user_id payload) with
             | Some old =>
                 doc_fields old !! "visits" = Some (VInt (n - 1))
                 \/ (doc_fields old !! "visits" = None /\ n = 1)
             | None => n = 1
             end).
Proof.
  split; [|split].
  - intros v Hv. rewrite level_of_visits_table.
    destruct (Z.ltb_spec v 3), (Z.ltb_spec v 10), (Z.ltb_spec v 20);
      repeat split; intros; lia.
  - intros v w _ H. apply level_of_visits_mono, H.
  - intros p d r d' H. apply log_visit_inv in H.
    inversion H
      as [ | nm cat loc Hu rec | | nm cat loc l1 old l2 f' n Hi Hl1 Hold Hf' Hv f''];
      subst.
    + eexists _, 1. split.
      { unfold impact_of, visit_logged. cbn [impact].
        apply find_middle; [exact Hu | apply matches_record]. }
      do 4 (split; [reflexivity|]). rewrite Hu. reflexivity.
    + assert (Hm : matches (by_user (VisitCreate.user_id p)) (Document (doc_id old) f'') = true).
      { rewrite <- Hold. destruct old as [i f]. apply matches_by_user_fields.
        unfold f''. rewrite lookup_insert_ne by discriminate.
        apply (counters_inc_user_id _ _ _ _ Hf'). }
      exists (Document (doc_id old) f''), n. split.
      { unfold impact_of, visit_logged. cbn [impact]. apply find_middle; assumption. }
      cbn [doc_fields body_impact]. unfold f''.
      rewrite !lookup_delete_ne by discriminate.
      rewrite lookup_insert_ne by discriminate. rewrite lookup_insert_eq.
      do 4 (split; [solve [auto]|]).
      assert (Hold0 : impact_of d (VisitCreate.user_id p) = Some old)
        by (unfold impact_of; rewrite Hi; apply find_middle; assumption).
      rewrite Hold0.
      destruct (counters_inc_visits _ _ _ _ Hf') as (v & Hnum & Hv').
      rewrite Hv in Hv'. injection Hv' as ->.
      unfold numeric in Hnum.
      destruct (doc_fields old !! "visits") as [[]|]; try discriminate;
        injection Hnum as <-; [left; do 2 f_equal; lia | right; split; [reflexivity | lia]].
Qed.

Lemma terra_level_is_tier_of_visits_witness :
  level_of_visits 9 = 1
  /\ level_of_visits 9 <= level_of_visits 10
  /\ exists doc n,
       impact_of seeded_visited "u1" = Some doc
       /\ doc_fields doc !! "visits" = Some (VInt n)
       /\ doc_fields doc !! "terra_level" = Some (VInt (level_of_visits n))
       /\ n = 1.
Proof.
  destruct terra_level_is_tier_of_visits as (Htab & Hmono & Hlog).
  split; [apply (Htab 9); lia|].
  split; [apply (Hmono 9 10); lia|].
  destruct (Hlog (VisitCreate.Make "u1" "alice" green_grove_id) seeded
              (ImpactBody (impact_record "u1" "alice" 1 10 1 0))
              seeded_visited)
    as (doc & n & H1 & H2 & H3 & _ & _ & H6).
  - vm_compute. reflexivity.
  - exists doc, n. split; [exact H1|]. split; [exact H2|]. split; [exact H3 | exact H6].
Defined.

(** ** [get_impact], path by path *)

Lemma or_guest_given (username : option string) :
  match username with
  | Some (String a s) => String a s
  | _ => "Guest"
  end = or_guest username.
Proof. destruct username as [[|a s]|]; reflexivity. Qed.

Lemma get_impact_new u name d :
  impact_of d u = None ->
  let rec := impact_record u (or_guest name) 0 0 0 0 in
  get_impact u name (Some d)
  = (Return rec,
     Some (Database (business d) (visit d)
             (impact d ++ [Document (ObjectId.generate (oid_counter d))
                             (<["created_at" := VTime (clock d)]> rec)])
             (N.succ (oid_counter d)) (S (clock d)))).
Proof.
  intros Hu rec. unfold impact_of in Hu. unfold get_impact. apply run_eq.
  step_with ltac:(unfold find_one; db_norm; fold (by_user u); rewrite Hu; reflexivity).
  cbv iota. step. reflexivity.
Qed.

Lemma get_impact_existing u name d doc :
  impact_of d u = Some doc ->
  get_impact u name (Some d) = (Return (delete "_id" (doc_fields doc)), Some d).
Proof.
  intros Hu. unfold impact_of in Hu. unfold get_impact. apply run_eq.
  step_with ltac:(unfold find_one; db_norm; fold (by_user u); rewrite Hu; reflexivity).
  unfold ret, to_dict. cbn [fmap option_fmap option_map].
  rewrite delete_insert_eq. reflexivity.
Qed.

(** ** [register_business] *)

Lemma validate_scored p s :
  Business.validate (<["eco_score" := VInt s]> (BusinessCreate.model_dump p))
  = if (0 <=? s)%Z && (s <=? 100)%Z then Return (registered p s) else Raise ValidationError.
Proof.
  destruct p as [n c l [w|] [de|] ch [lg|]];
    unfold Business.validate, registered;
    repeat match goal with
           | |- context [@lookup _ _ _ _ ?k ?m] =>
               let v := eval vm_compute in (m !! k) in
               change (m !! k) with v
           end;
    cbn [field_str field_optional_str field_bools field_int and_then];
    destruct ((0 <=? s)%Z && (s <=? 100)%Z); reflexivity.
Qed.

Lemma validate_unscored p :
  Business.validate (BusinessCreate.model_dump p) = Return (registered p 80).
Proof.
  destruct p as [n c l [w|] [de|] ch [lg|]]; reflexivity.
Qed.

Lemma oid_unused_find c d :
  oid_unused c d = true ->
  List.find (matches (by_id (ObjectId.generate (oid_counter d)))) (get_coll c d) = None.
Proof.
  unfold oid_unused. induction (get_coll c d) as [|a l IH]; [reflexivity|].
  cbn [forallb List.find]. intros H. apply andb_true_iff in H as [Ha Hl].
  rewrite matches_by_id. rewrite bool_decide_eq_false_2; [apply IH, Hl|].
  intros E. rewrite E, String.eqb_refl in Ha. discriminate.
Qed.

Lemma register_business_validate p db :
  register_business p db
  = match (if (0 <=? score_of p)%Z && (score_of p <=? 100)%Z
           then Return (registered p (score_of p)) else Raise ValidationError) with
    | Raise e => (Raise e, db)
    | Return b =>
        match db with
        | None => (Raise Unavailable, None)
        | Some d =>
            run (bid <- create_document c_business (Business.model_dump b) ;;
                 oid <- lift (match ObjectId.parse bid with
                              | Some o => Return o
                              | None => Raise InvalidId
                              end) ;;
                 d <- find_one c_business [("_id", VOid oid)] ;;
                 match d with
                 | Some d => lift (business_doc_to_response d)
                 | None => raise AttributeError
                 end) d
        end
    end.
Proof.
  unfold register_business, score_of, count_true.
  change (BusinessCreate.model_dump p !! "eco_checks")
    with (Some (VBools (BusinessCreate.eco_checks p))).
  cbv iota. destruct (BusinessCreate.eco_checks p) as [|c cs].
  - rewrite validate_unscored. reflexivity.
  - rewrite validate_scored. reflexivity.
Qed.

Lemma register_business_rejected p db :
  100 < score_of p ->
  register_business p db = (Raise ValidationError, db).
Proof.
  intros H. rewrite register_business_validate.
  destruct (Z.leb_spec (score_of p) 100); [lia|]. rewrite andb_false_r. reflexivity.
Qed.

Lemma register_business_stored p d :
  0 <= score_of p <= 100 ->
  oid_unused c_business d = true ->
  let i := ObjectId.generate (oid_counter d) in
  let stored := <["created_at" := VTime (clock d)]>
                  (Business.model_dump (registered p (score_of p))) in
  register_business p (Some d)
  = (Return (<["id" := VStr (ObjectId.str i)]> stored),
     Some (Database (business d ++ [Document i stored]) (visit d) (impact d)
             (N.succ (oid_counter d)) (S (clock d)))).
Proof.
  intros Hs Hfresh i stored. rewrite register_business_validate.
  destruct (Z.leb_spec 0 (score_of p)); [|lia].
  destruct (Z.leb_spec (score_of p) 100); [|lia]. cbn [andb].
  apply run_eq.
  step.
  step_with ltac:(unfold lift; rewrite parse_str_generate; reflexivity).
  step_with ltac:(unfold find_one; db_norm; fold (by_id (ObjectId.generate (oid_counter d)));
                  rewrite find_middle;
                  [reflexivity | apply (oid_unused_find c_business), Hfresh
                  | rewrite matches_by_id; apply bool_decide_eq_true_2; reflexivity]).
  unfold lift, business_doc_to_response, to_dict.
  cbn [fmap option_fmap option_map doc_id doc_fields].
  rewrite lookup_insert_eq, delete_insert_eq. fold i. fold stored.
  rewrite delete_id; [reflexivity|]. reflexivity.
Qed.

(** ** What the writing handlers do to the [impact] collection *)

Lemma get_impact_inv u name d r d' :
  get_impact u name (Some d) = (r, Some d') ->
  (exists doc, impact_of d u = Some doc
               /\ r = Return (delete "_id" (doc_fields doc)) /\ d' = d)
  \/ (impact_of d u = None
      /\ r = Return (impact_record u (or_guest name) 0 0 0 0)
      /\ impact d' = impact d ++ [Document (ObjectId.generate (oid_counter d))
                                    (<["created_at" := VTime (clock d)]>
                                       (impact_record u (or_guest name) 0 0 0 0))]).
Proof.
  destruct (impact_of d u) as [doc|] eqn:Hu.
  - rewrite (get_impact_existing _ _ _ _ Hu). intros [= <- <-]. left. eauto.
  - rewrite (get_impact_new _ _ _ Hu). intros [= <- <-]. right. auto.
Qed.

Lemma keeps_impact_bind {A B} (m : M A) (f : A -> M B) :
  keeps_impact m -> (forall a, keeps_impact (f a)) -> keeps_impact (bind m f).
Proof.
  intros Hm Hf d r d'. unfold bind. destruct (m d) as [[a|e] d1] eqn:E.
  - intros H. rewrite (Hf a _ _ _ H). apply (Hm _ _ _ E).
  - intros [= _ <-]. apply (Hm _ _ _ E).
Qed.

Lemma keeps_impact_pure {A} (r : result A) : keeps_impact (lift r).
Proof. intros d r' d' [= _ <-]. reflexivity. Qed.

Lemma keeps_impact_find_one c q : keeps_impact (find_one c q).
Proof. intros d r' d' [= _ <-]. reflexivity. Qed.

Lemma keeps_impact_create_business data : keeps_impact (create_document c_business data).
Proof. intros d r' d' [= _ <-]. reflexivity. Qed.

Lemma register_business_impact p d r d' :
  register_business p (Some d) = (r, Some d') -> impact d' = impact d.
Proof.
  rewrite register_business_validate.
  destruct ((0 <=? score_of p)%Z && (score_of p <=? 100)%Z).
  2: { intros [= _ <-]. reflexivity. }
  unfold run.
  match goal with |- context [let (_, _) := ?m d in _] => destruct (m d) as [r0 d0] eqn:E end.
  intros [= _ <-]. revert E. apply keeps_impact_bind.
  - apply keeps_impact_create_business.
  - intros bid. apply keeps_impact_bind; [apply keeps_impact_pure|].
    intros oid. apply keeps_impact_bind; [apply keeps_impact_find_one|].
    intros [doc|]; apply keeps_impact_pure.
Qed.

Lemma reachable_impact_Forall (P : pydict -> Prop) :
  (forall u name z, P (<["created_at" := VTime z]> (impact_record u name 0 0 0 0))) ->
  (forall u name, P (impact_record u name 1 10 1 0)) ->
  (forall u name f f' t,
      P f -> apply_update (counters_inc u name) f = Some f' ->
      P (<["terra_level" := VInt t]> f')) ->
  forall d, reachable d -> Forall (fun doc => P (doc_fields doc)) (impact d).
Proof.
  intros Hzero Hone Hinc d Hd.
  induction Hd as [d H0 | d p r d' _ IH H | d u name r d' _ IH H | d p r d' _ IH H].
  - rewrite H0. constructor.
  - apply log_visit_inv in H.
    inversion H as [ | nm cat loc Hu rec | | nm cat loc l1 old l2 f' n Hi Hl1 Hold Hf' Hv f''];
      subst; unfold visit_logged; cbn [impact]; try exact IH.
    + apply Forall_app. split; [exact IH|]. constructor; [apply Hone | constructor].
    + rewrite Hi in IH. apply Forall_app in IH as [IH1 IH2].
      apply Forall_cons in IH2 as [IHo IH2].
      apply Forall_app. split; [exact IH1|]. constructor; [|exact IH2].
      cbn [doc_fields]. eapply Hinc; eassumption.
  - apply get_impact_inv in H as [(doc & _ & _ & ->) | (_ & _ & ->)]; [exact IH|].
    apply Forall_app. split; [exact IH|]. constructor; [apply Hzero | constructor].
  - rewrite (register_business_impact _ _ _ _ H). exact IH.
Qed.

(** C9: in every state reached from an empty [impact] collection through
    [log_visit], [get_impact] and [register_business], every Impact record
    has [community_impact = visits]; a record starts with both at 0
    ([get_impact]) or is created by its first visit with both at 1, and a
    completed [log_visit] on an existing record adds exactly 1 to each. *)
Theorem community_impact_equals_visits :
  (forall d, reachable d -> Forall counters_agree (impact d))
  /\ (forall payload d r d' old,
        reachable d ->
        impact_of d (VisitCreate.user_id payload) = Some old ->
        log_visit payload (Some d) = (Return r, Some d') ->
        exists n new,
          doc_fields old !! "visits" = Some (VInt n)
          /\ doc_fields old !! "community_impact" = Some (VInt n)
          /\ impact_of d' (VisitCreate.user_id payload) = Some new
          /\ doc_fields new !! "visits" = Some (VInt (n + 1))
          /\ doc_fields new !! "community_impact" = Some (VInt (n + 1))).
Proof.
  assert (Hall : forall d, reachable d -> Forall counters_agree (impact d)).
  { apply (reachable_impact_Forall
             (fun f => exists n : Z, f !! "visits" = Some (VInt n)
                                     /\ f !! "community_impact" = Some (VInt n))).
    - intros u name z. exists 0. split; reflexivity.
    - intros u name. exists 1. split; reflexivity.
    - intros u name f f' t (n & Hv & Hc) Hf'.
      destruct (apply_counters_inc_Some _ _ _ _ Hf') as (v & e & c & Hv' & _ & Hc' & ->).
      rewrite Hv in Hv'. rewrite Hc in Hc'. injection Hv' as <-. injection Hc' as <-.
      exists (n + 1). split.
      + rewrite !lookup_insert_ne by discriminate. apply lookup_insert_eq.
      + rewrite lookup_insert_ne by discriminate. apply lookup_insert_eq. }
  split; [exact Hall|].
  intros p d r d' old Hd Hold H.
  assert (Hag : counters_agree old).
  { specialize (Hall d Hd). rewrite Forall_forall in Hall. apply Hall.
    unfold impact_of in Hold. apply find_some in Hold. apply list_elem_of_In, Hold. }
  destruct Hag as (n & Hv & Hc).
  apply log_visit_inv in H.
  inversion H as [ | nm cat loc Hu rec | | nm cat loc l1 old' l2 f' m Hi Hl1 Hold' Hf' Hm f''];
    subst.
  - congruence.
  - assert (old' = old) as ->.
    { unfold impact_of in Hold. rewrite Hi, (find_middle _ _ _ _ Hl1 Hold') in Hold.
      congruence. }
    destruct (apply_counters_inc_Some _ _ _ _ Hf') as (v & e & c & Hv' & _ & Hc' & E).
    rewrite Hv in Hv'. rewrite Hc in Hc'. injection Hv' as <-. injection Hc' as <-.
    exists n, (Document (doc_id old) f''). repeat split; try assumption.
    + unfold impact_of, visit_logged. cbn [impact]. apply find_middle; [exact Hl1|].
      rewrite <- Hold'. destruct old as [i f]. apply matches_by_user_fields.
      unfold f''. rewrite lookup_insert_ne by discriminate.
      apply (counters_inc_user_id _ _ _ _ Hf').
    + cbn [doc_fields]. unfold f''. rewrite E.
      rewrite !lookup_insert_ne by discriminate. apply lookup_insert_eq.
    + cbn [doc_fields]. unfold f''. rewrite E.
      rewrite lookup_insert_ne by discriminate. apply lookup_insert_eq.
Qed.

Lemma community_impact_equals_visits_witness :
  Forall counters_agree (impact seeded_visited)
  /\ exists d' n new,
      doc_fields (Document (ObjectId.generate 2) (impact_record "u1" "alice" 1 10 1 0))
        !! "visits" = Some (VInt n)
      /\ doc_fields (Document (ObjectId.generate 2) (impact_record "u1" "alice" 1 10 1 0))
           !! "community_impact" = Some (VInt n)
      /\ impact_of d' "u1" = Some new
      /\ doc_fields new !! "visits" = Some (VInt (n + 1))
      /\ doc_fields new !! "community_impact" = Some (VInt (n + 1)).
Proof.
  assert (Hr : reachable seeded_visited).
  { apply (reach_log_visit seeded (VisitCreate.Make "u1" "alice" green_grove_id)
             (Return (ImpactBody (impact_record "u1" "alice" 1 10 1 0)))).
    - apply reach_init. reflexivity.
    - vm_compute. reflexivity. }
  split.
  - apply (proj1 community_impact_equals_visits), Hr.
  - eexists.
    eapply (proj2 community_impact_equals_visits
              (VisitCreate.Make "u1" "bob" green_grove_id) seeded_visited).
    + exact Hr.
    + vm_compute. reflexivity.
    + vm_compute. reflexivity.
Defined.

(** C3 (as stated, refuted): a [business_id] that is not a well-formed
    identifier resolves to no Business, and the call fails with status 400,
    not 404. *)
Lemma log_visit_malformed_id_is_400 :
  lookup_business seeded "nope" = None
  /\ log_visit (VisitCreate.Make "u1" "alice" "nope") (Some seeded)
     = (Raise (HTTPException 400 "Invalid id"), Some seeded)
  /\ log_visit (VisitCreate.Make "u1" "alice" "nope") (Some seeded)
     <> (Raise (HTTPException 404 "Business not found"), Some seeded).
Proof.
  split; [reflexivity|].
  assert (E : log_visit (VisitCreate.Make "u1" "alice" "nope") (Some seeded)
              = (Raise (HTTPException 400 "Invalid id"), Some seeded))
    by (apply log_visit_invalid; reflexivity).
  split; [exact E|]. rewrite E. discriminate.
Qed.

(** C3 (amended): with the store available, a [log_visit] whose
    [business_id] resolves to no Business fails and leaves the store
    unchanged (no visit inserted, no Impact record created or incremented):
    with status 404 when the id is well formed, with status 400 when it is
    malformed. *)
Theorem log_visit_unknown_business (payload : VisitCreate.t) (d : database) :
  lookup_business d (VisitCreate.business_id payload) = None ->
  log_visit payload (Some d)
  = (Raise (match ObjectId.parse (VisitCreate.business_id payload) with
            | Some _ => HTTPException 404 "Business not found"
            | None => HTTPException 400 "Invalid id"
            end),
     Some d).
Proof.
  unfold lookup_business.
  destruct (ObjectId.parse (VisitCreate.business_id payload)) as [o|] eqn:H1.
  - intros H2. eapply log_visit_notfound; eassumption.
  - intros _. apply log_visit_invalid, H1.
Qed.

Lemma log_visit_unknown_business_witness :
  log_visit (VisitCreate.Make "u1" "alice" "0000000000000000000000ff") (Some seeded_visited)
  = (Raise (HTTPException 404 "Business not found"), Some seeded_visited).
Proof.
  apply (log_visit_unknown_business
           (VisitCreate.Make "u1" "alice" "0000000000000000000000ff") seeded_visited).
  vm_compute. reflexivity.
Defined.

(** C4 (as stated, refuted): with no database, [get_impact] answers with
    a zero-count Impact for "Guest" instead of raising. *)
Lemma get_impact_without_database :
  get_impact "u1" None None = (Return (impact_record "u1" "Guest" 0 0 0 0), None)
  /\ forall detail, fst (get_impact "u1" None None) <> Raise (HTTPException 500 detail).
Proof. split; [reflexivity | intros detail; discriminate]. Qed.

(** C4 (amended): with no database, [log_visit] raises status 500, while
    [get_impact] returns a zero-count Impact built from the call, whose
    username is the one of the call when it is given and not empty and
    "Guest" otherwise (nothing is stored), and the directory listing and the
    visit listing return an empty list. *)
Theorem handlers_without_database :
  forall (payload : VisitCreate.t) (user_id : string) (username : option string)
         (regex_compile : string -> string -> option (string -> bool))
         (search category : option string),
    log_visit payload None = (Raise (HTTPException 500 "Database not available"), None)
    /\ get_impact user_id username None
       = (Return (impact_record user_id
                    match username with
                    | Some (String a s) => String a s
                    | _ => "Guest"
                    end 0 0 0 0), None)
    /\ list_businesses regex_compile search category None = (Return [], None)
    /\ get_user_visits user_id None = (Return [], None).
Proof.
  intros. split; [reflexivity|]. split; [|split; reflexivity].
  destruct username as [[|a s]|]; reflexivity.
Qed.

(** C6: [get_impact] for a user with no Impact record returns the
    zero-valued record, whose username is the one of the call when it is
    given and not empty and "Guest" otherwise, stores it with no counter
    incremented, and a second [get_impact] for the user returns the stored
    record, the same six fields, and inserts nothing. *)
Theorem get_impact_read_or_initialize (d : database) (user_id : string)
    (username username' : option string) :
  impact_of d user_id = None ->
  let rec := impact_record user_id
               match username with
               | Some (String a s) => String a s
               | _ => "Guest"
               end 0 0 0 0 in
  exists d1 stored again,
    get_impact user_id username (Some d) = (Return rec, Some d1)
    /\ impact d1 = impact d ++ [stored]
    /\ impact_of d1 user_id = Some stored
    /\ get_impact user_id username' (Some d1) = (Return again, Some d1)
    /\ again = doc_fields stored
    /\ forall k, k <> "created_at" -> again !! k = rec !! k.
Proof.
  intros Hu rec. subst rec. rewrite (or_guest_given username).
  set (rec := impact_record user_id (or_guest username) 0 0 0 0).
  eexists _, _, _.
  split; [apply get_impact_new, Hu|].
  cbn [impact]. split; [reflexivity|].
  assert (Hs : impact_of
                 (Database (business d) (visit d)
                    (impact d ++ [Document (ObjectId.generate (oid_counter d))
                                    (<["created_at" := VTime (clock d)]> rec)])
                    (N.succ (oid_counter d)) (S (clock d))) user_id
               = Some (Document (ObjectId.generate (oid_counter d))
                         (<["created_at" := VTime (clock d)]> rec))).
  { unfold impact_of. cbn [impact]. apply find_middle; [exact Hu|].
    rewrite matches_by_user. apply bool_decide_eq_true_2. reflexivity. }
  split; [exact Hs|].
  split; [apply get_impact_existing, Hs|].
  cbn [doc_fields]. split.
  - apply delete_id. reflexivity.
  - intros k Hk. rewrite delete_id by reflexivity.
    apply lookup_insert_ne. congruence.
Qed.

Lemma get_impact_read_or_initialize_witness :
  exists d1 stored again,
    get_impact "u2" (Some "bob") (Some seeded_visited)
    = (Return (impact_record "u2" "bob" 0 0 0 0), Some d1)
    /\ impact d1 = impact seeded_visited ++ [stored]
    /\ impact_of d1 "u2" = Some stored
    /\ get_impact "u2" None (Some d1) = (Return again, Some d1)
    /\ again = doc_fields stored
    /\ forall k, k <> "created_at" -> again !! k = impact_record "u2" "bob" 0 0 0 0 !! k.
Proof.
  apply (get_impact_read_or_initialize seeded_visited "u2" (Some "bob") None).
  vm_compute. reflexivity.
Defined.



(** C7 (as stated, refuted): six true entries give 60 + 8 * 6 = 108, which the
    Business schema rejects; nothing is stored. *)
Lemma register_business_six_checks :
  register_business
    (BusinessCreate.Make "Harvest Hill Farm" "Farms" "Foothills" None None
       [true; true; true; true; true; true] None)
    (Some seeded)
  = (Raise ValidationError, Some seeded).
Proof. vm_compute. reflexivity. Qed.

(** C7 (amended): with the store available, a [register_business] call with
    a non-empty [eco_checks] of at most five true entries stores and returns
    the Business with [eco_score = 60 + 8 * (number of true entries)] and
    with its assigned [id]; with more than five true entries the score
    exceeds the schema's bound of 100, the call fails and nothing is stored. *)
Theorem register_business_eco_score (payload : BusinessCreate.t) (d : database) :
  BusinessCreate.eco_checks payload <> [] ->
  oid_unused c_business d = true ->
  let k := count_true (BusinessCreate.eco_checks payload) in
  (k <= 5 ->
   exists resp stored d',
     register_business payload (Some d) = (Return resp, Some d')
     /\ business d' = business d ++ [stored]
     /\ doc_fields stored !! "eco_score" = Some (VInt (60 + 8 * k))
     /\ resp !! "eco_score" = Some (VInt (60 + 8 * k))
     /\ resp !! "id" = Some (VStr (ObjectId.str (doc_id stored)))
     /\ lookup_business d' (ObjectId.str (doc_id stored)) = Some stored)
  /\ (5 < k -> register_business payload (Some d) = (Raise ValidationError, Some d)).
Proof.
  intros Hne Hfresh k.
  assert (Hs : score_of payload = 60 + 8 * k).
  { unfold score_of, k. destruct (BusinessCreate.eco_checks payload); [congruence | lia]. }
  assert (Hk : 0 <= k) by (unfold k, count_true; lia).
  split.
  - intros Hle. eexists _, _, _.
    split; [apply register_business_stored; [lia | exact Hfresh]|].
    cbn [business doc_fields doc_id]. split; [reflexivity|].
    rewrite Hs. split; [reflexivity|]. split; [reflexivity|]. split; [reflexivity|].
    unfold lookup_business. cbn [doc_id business]. rewrite parse_str_generate.
    apply find_middle; [apply (oid_unused_find c_business), Hfresh|].
    rewrite matches_by_id. apply bool_decide_eq_true_2. reflexivity.
  - intros Hgt. apply register_business_rejected. lia.
Qed.

Lemma register_business_eco_score_witness :
  exists resp stored d',
    register_business
      (BusinessCreate.Make "Leaf and Latte" "Cafes" "Downtown" None None
         [true; true; true; true; false] None)
      (Some seeded) = (Return resp, Some d')
    /\ business d' = business seeded ++ [stored]
    /\ doc_fields stored !! "eco_score" = Some (VInt 92)
    /\ resp !! "eco_score" = Some (VInt 92)
    /\ resp !! "id" = Some (VStr (ObjectId.str (doc_id stored)))
    /\ lookup_business d' (ObjectId.str (doc_id stored)) = Some stored.
Proof.
  apply (register_business_eco_score
           (BusinessCreate.Make "Leaf and Latte" "Cafes" "Downtown" None None
              [true; true; true; true; false] None) seeded).
  - discriminate.
  - vm_compute. reflexivity.
  - vm_compute. discriminate.
Defined.

(** C10: the request schema of [register_business] has no [eco_score]
    field, so the dumped payload carries none; with an empty [eco_checks]
    the stored and returned Business has the schema default
    [eco_score = 80]. *)
Theorem register_business_default_score (payload : BusinessCreate.t) (d : database) :
  BusinessCreate.eco_checks payload = [] ->
  oid_unused c_business d = true ->
  BusinessCreate.model_dump payload !! "eco_score" = None
  /\ exists resp stored d',
      register_business payload (Some d) = (Return resp, Some d')
      /\ business d' = business d ++ [stored]
      /\ doc_fields stored !! "eco_score" = Some (VInt 80)
      /\ resp !! "eco_score" = Some (VInt 80).
Proof.
  intros He Hfresh. split; [reflexivity|].
  assert (Hs : score_of payload = 80) by (unfold score_of; rewrite He; reflexivity).
  eexists _, _, _.
  split; [apply register_business_stored; [lia | exact Hfresh]|].
  cbn [business doc_fields]. rewrite Hs. repeat split; reflexivity.
Qed.

Lemma register_business_default_score_witness :
  exists resp stored d',
    register_business
      (BusinessCreate.Make "Local Loop Shop" "Local Shops" "Market Street" None None [] None)
      (Some seeded) = (Return resp, Some d')
    /\ business d' = business seeded ++ [stored]
    /\ doc_fields stored !! "eco_score" = Some (VInt 80)
    /\ resp !! "eco_score" = Some (VInt 80).
Proof.
  apply (register_business_default_score
           (BusinessCreate.Make "Local Loop Shop" "Local Shops" "Market Street" None None [] None)
           seeded); reflexivity.
Defined.

(** ** Answers that carry [id] *)

Lemma business_doc_to_response_stored doc :
  business_doc_to_response (to_dict doc) = Return (response_of doc).
Proof.
  unfold business_doc_to_response, response_of, to_dict at 1.
  rewrite lookup_insert_eq. reflexivity.
Qed.

Lemma map_result_responses (docs : list document) :
  map_result business_doc_to_response (List.map to_dict docs)
  = Return (List.map response_of docs).
Proof.
  induction docs as [|doc docs IH]; [reflexivity|].
  cbn [List.map map_result]. rewrite business_doc_to_response_stored, IH. reflexivity.
Qed.

Lemma incl_take {A} (n : nat) (l : list A) : incl (take n l) l.
Proof.
  revert n. induction l as [|a l IH]; intros [|n]; cbn [take firstn]; intros x Hx;
    try contradiction.
  destruct Hx as [<-|Hx]; [left; reflexivity | right; apply (IH n), Hx].
Qed.

Lemma incl_filter {A} (f : A -> bool) (l : list A) : incl (List.filter f l) l.
Proof. intros x Hx. apply filter_In in Hx. apply Hx. Qed.

Lemma list_businesses_inv regex_compile search category d l d' :
  list_businesses regex_compile search category (Some d) = (Return l, d') ->
  d' = Some d
  /\ exists docs, l = List.map response_of docs /\ incl docs (business d).
Proof.
  unfold list_businesses.
  match goal with
  | |- context [match ?nm with Return _ => _ | Raise _ => _ end] =>
      destruct nm as [f|e]
  end; [|discriminate].
  rewrite map_result_responses. intros [= <- <-]. split; [reflexivity|].
  eexists. split; [reflexivity|].
  intros x Hx. apply incl_take in Hx. apply incl_filter in Hx. exact Hx.
Qed.

Lemma In_insert_desc key x y l :
  In y (insert_desc key x l) -> y = x \/ In y l.
Proof.
  induction l as [|a l IH]; cbn [insert_desc].
  - intros [<-|[]]. left. reflexivity.
  - destruct (key a <? key x)%nat.
    + intros [<-|H]; [left; reflexivity | right; exact H].
    + intros [<-|H]; [right; left; reflexivity|].
      destruct (IH H) as [->|H']; [left; reflexivity | right; right; exact H'].
Qed.

Lemma incl_sort_desc key l : incl (sort_desc key l) l.
Proof.
  induction l as [|a l IH]; intros y Hy; [exact Hy|].
  cbn [sort_desc foldr] in Hy. apply In_insert_desc in Hy as [->|Hy].
  - left. reflexivity.
  - right. apply IH, Hy.
Qed.

Lemma get_business_inv b d x d' :
  get_business b (Some d) = (Return x, Some d') ->
  exists doc, In doc (business d) /\ x = response_of doc.
Proof.
  unfold get_business, run, bind, lift, to_obj_id, find_one, raise. db_norm.
  destruct (ObjectId.parse b) as [o|]; [|discriminate].
  destruct (List.find (matches [("_id", VOid o)]) (business d)) as [doc|] eqn:Hf;
    cbn [fmap option_fmap option_map]; [|discriminate].
  rewrite business_doc_to_response_stored. intros [= <- _].
  exists doc. split; [apply (find_some _ _ Hf) | reflexivity].
Qed.

Lemma register_business_inv p d x d' :
  register_business p (Some d) = (Return x, Some d') ->
  exists doc, In doc (business d') /\ x = response_of doc.
Proof.
  rewrite register_business_validate.
  destruct ((0 <=? score_of p)%Z && (score_of p <=? 100)%Z); [|discriminate].
  cbv beta iota zeta delta
    [run bind create_document insert_one ret lift find_one raise set_coll get_coll
     business visit impact oid_counter clock].
  rewrite parse_str_generate.
  match goal with
  | |- context [List.find ?f ?l] => destruct (List.find f l) as [doc|] eqn:Hf
  end; cbn [fmap option_fmap option_map]; [|discriminate].
  rewrite business_doc_to_response_stored. intros [= <- <-].
  exists doc. split; [apply (find_some _ _ Hf) | reflexivity].
Qed.

Lemma reachable_no_id d :
  reachable d -> Forall (fun doc => doc_fields doc !! "id" = None) (impact d).
Proof.
  apply (reachable_impact_Forall (fun f => f !! "id" = None)).
  - reflexivity.
  - reflexivity.
  - intros u name f f' t Hf Hf'.
    destruct (apply_counters_inc_Some _ _ _ _ Hf') as (v & e & c & _ & _ & _ & ->).
    rewrite !lookup_insert_ne by discriminate. exact Hf.
Qed.

(** C8 (as stated, refuted): the Impact that [get_impact] and [log_visit]
    answer with has no [id] field. *)
Lemma impact_answers_without_id :
  (exists x d', get_impact "u1" None (Some seeded_visited) = (Return x, Some d')
                /\ x !! "id" = None)
  /\ (exists r d', log_visit (VisitCreate.Make "u1" "alice" green_grove_id) (Some seeded)
                   = (Return r, Some d')
                   /\ body_impact r !! "id" = None).
Proof.
  split; eexists _, _; (split; [vm_compute; reflexivity | reflexivity]).
Qed.

(** C8 (amended): every Business the directory endpoints answer with and
    every Visit [get_user_visits] answers with is a stored document that
    carries, in place of [_id], an [id] field with the string form of that
    [_id]; the Impact that [get_impact] and [log_visit] answer with has its
    [_id] removed and, in a store whose Impact records were written by the
    handlers, carries no [id] field. *)
Theorem answers_carry_id :
  (forall doc,
      response_of doc !! "id" = Some (VStr (ObjectId.str (doc_id doc)))
      /\ response_of doc !! "_id" = None)
  /\ (forall regex_compile search category d l d',
        list_businesses regex_compile search category (Some d) = (Return l, d') ->
        exists docs, l = List.map response_of docs /\ incl docs (business d))
  /\ (forall business_id d x d',
        get_business business_id (Some d) = (Return x, Some d') ->
        exists doc, In doc (business d) /\ x = response_of doc)
  /\ (forall payload d x d',
        register_business payload (Some d) = (Return x, Some d') ->
        exists doc, In doc (business d') /\ x = response_of doc)
  /\ (forall user_id d,
        exists docs,
          get_user_visits user_id (Some d) = (Return (List.map response_of docs), Some d)
          /\ incl docs (visit d))
  /\ (forall user_id username d x d',
        reachable d ->
        get_impact user_id username (Some d) = (Return x, Some d') ->
        x !! "_id" = None /\ x !! "id" = None)
  /\ (forall payload d r d',
        reachable d ->
        log_visit payload (Some d) = (Return r, Some d') ->
        body_impact r !! "_id" = None /\ body_impact r !! "id" = None).
Proof.
  split; [|split; [|split; [|split; [|split; [|split]]]]].
  - intros doc. unfold response_of. split.
    + apply lookup_insert_eq.
    + rewrite lookup_insert_ne by discriminate. apply lookup_delete_eq.
  - intros regex_compile search category d l d' H.
    apply (list_businesses_inv _ _ _ _ _ _ H).
  - apply get_business_inv.
  - apply register_business_inv.
  - intros u d. unfold get_user_visits.
    eexists. rewrite map_result_responses. split; [reflexivity|].
    intros x Hx. apply incl_take, incl_sort_desc, incl_filter in Hx. exact Hx.
  - intros u name d x d' Hd H.
    apply get_impact_inv in H as [(doc & Hu & [= ->] & _) | (_ & [= ->] & _)].
    + split; [apply lookup_delete_eq|].
      rewrite lookup_delete_ne by discriminate.
      pose proof (reachable_no_id d Hd) as Hall. rewrite Forall_forall in Hall.
      apply Hall. unfold impact_of in Hu. apply find_some in Hu.
      apply list_elem_of_In, Hu.
    + split; reflexivity.
  - intros p d r d' Hd H. apply log_visit_inv in H.
    inversion H as [ | nm cat loc Hu rec | | nm cat loc l1 old l2 f' n Hi Hl1 Hold Hf' Hv f''];
      subst; cbn [body_impact].
    + split; reflexivity.
    + split; [apply lookup_delete_eq|].
      rewrite lookup_delete_ne by discriminate. unfold f''.
      destruct (apply_counters_inc_Some _ _ _ _ Hf') as (v & e & c & _ & _ & _ & ->).
      rewrite !lookup_insert_ne by discriminate.
      pose proof (reachable_no_id d Hd) as Hall. rewrite Hi in Hall.
      apply Forall_app in Hall as [_ Hall]. apply Forall_cons in Hall as [Hall _].
      exact Hall.
Qed.

Lemma answers_carry_id_witness :
  (exists doc, In doc (business seeded)
               /\ response_of doc !! "id" = Some (VStr green_grove_id))
  /\ body_impact (ImpactBody (impact_record "u1" "alice" 1 10 1 0)) !! "id" = None.
Proof.
  destruct answers_carry_id as (Hid & _ & Hget & _ & _ & _ & Hlog). split.
  - destruct (Hget green_grove_id seeded
                (response_of (Document (ObjectId.generate 0)
                   (<["created_at" := VTime 0]> (Business.model_dump green_grove))))
                seeded) as (doc & Hin & Hx).
    + vm_compute. reflexivity.
    + exists doc. split; [exact Hin|]. rewrite <- Hx. reflexivity.
  - apply (Hlog (VisitCreate.Make "u1" "alice" green_grove_id) seeded _ seeded_visited).
    + apply reach_init. reflexivity.
    + vm_compute. reflexivity.
Defined.

(** * Further properties of the handlers *)

Lemma to_dict_field (bdoc : document) (k : string) :
  k <> "_id" -> to_dict bdoc !! k = doc_fields bdoc !! k.
Proof. intros H. unfold to_dict. apply lookup_insert_ne. congruence. Qed.

Lemma log_visit_outcomes p d :
  exists r d', log_visit p (Some d) = (r, Some d') /\ log_visit_outcome p d r d'.
Proof.
  destruct (ObjectId.parse (VisitCreate.business_id p)) as [o|] eqn:H1.
  2: { eexists _, _. split; [apply log_visit_invalid; exact H1 | constructor; exact H1]. }
  assert (Hlk : lookup_business d (VisitCreate.business_id p)
                = List.find (matches (by_id o)) (business d))
    by (unfold lookup_business; rewrite H1; reflexivity).
  destruct (List.find (matches (by_id o)) (business d)) as [bdoc|] eqn:H2.
  2: { eexists _, _. split; [eapply log_visit_notfound; eassumption |].
       econstructor; eassumption. }
  destruct (business_fields bdoc) eqn:Hb.
  2: { eexists _, _. split; [eapply log_visit_rejected; eassumption |].
       econstructor; eassumption. }
  destruct (business_fields_str _ Hb) as (nm & cat & loc & Hn & Hc & Hl).
  pose proof Hn as Hn'. pose proof Hc as Hc'. pose proof Hl as Hl'.
  rewrite to_dict_field in Hn', Hc', Hl' by discriminate.
  destruct (impact_of d (VisitCreate.user_id p)) as [old|] eqn:Hu.
  2: { eexists _, _. split; [eapply log_visit_first; eassumption |].
       eapply outcome_first; eassumption. }
  unfold impact_of in Hu. destruct (find_split _ _ _ Hu) as (l1 & l2 & Hi & Hl1 & Hold).
  destruct (apply_update (counters_inc (VisitCreate.user_id p) (VisitCreate.username p))
                         (doc_fields old)) as [f'|] eqn:Hf'.
  - destruct (counters_inc_visits _ _ _ _ Hf') as (v & _ & Hv).
    eexists _, _. split; [eapply log_visit_again; eassumption |].
    eapply outcome_again; eassumption.
  - eexists _, _. split; [eapply log_visit_write_error; eassumption |].
    eapply outcome_write_error; eassumption.
Qed.

Lemma log_visit_outcome_inv p d r d' :
  log_visit p (Some d) = (r, Some d') -> log_visit_outcome p d r d'.
Proof.
  intros H. destruct (log_visit_outcomes p d) as (r0 & d0 & H0 & Hp).
  rewrite H0 in H. injection H as <- <-. exact Hp.
Qed.

(** ** Finding a user's record in a changed collection *)

Lemma find_app {A} (p : A -> bool) (l1 l2 : list A) :
  List.find p (l1 ++ l2)
  = match List.find p l1 with Some x => Some x | None => List.find p l2 end.
Proof.
  induction l1 as [|a l1 IH]; [reflexivity|]. cbn [app List.find].
  destruct (p a); [reflexivity | exact IH].
Qed.

Lemma find_replace {A} (p : A -> bool) (l1 l2 : list A) (x y : A) :
  p x = false -> p y = false ->
  List.find p (l1 ++ y :: l2) = List.find p (l1 ++ x :: l2).
Proof.
  intros Hx Hy. rewrite !find_app. cbn [List.find]. rewrite Hx, Hy. reflexivity.
Qed.

Lemma find_snoc_other {A} (p : A -> bool) (l : list A) (x : A) :
  p x = false -> List.find p (l ++ [x]) = List.find p l.
Proof.
  intros Hx. rewrite find_app. cbn [List.find]. rewrite Hx.
  destruct (List.find p l); reflexivity.
Qed.

Lemma matches_other_user u u' i f :
  u <> u' -> f !! "user_id" = Some (VStr u) ->
  matches (by_user u') (Document i f) = false.
Proof.
  intros Hne Hf. rewrite matches_by_user. apply bool_decide_eq_false_2.
  cbn [doc_fields]. rewrite Hf. congruence.
Qed.

Lemma matches_user_id u doc :
  matches (by_user u) doc = true -> doc_fields doc !! "user_id" = Some (VStr u).
Proof. rewrite matches_by_user. apply bool_decide_eq_true_1. Qed.

(** ** Induction on the [impact] collection of a reachable state *)

Lemma reachable_impact_ind (Q : list document -> Prop) :
  Q [] ->
  (forall l u name i z,
      Q l -> List.find (matches (by_user u)) l = None ->
      Q (l ++ [Document i (<["created_at" := VTime z]> (impact_record u name 0 0 0 0))])) ->
  (forall l u name i,
      Q l -> List.find (matches (by_user u)) l = None ->
      Q (l ++ [Document i (impact_record u name 1 10 1 0)])) ->
  (forall l1 old l2 u name f' n,
      Q (l1 ++ old :: l2) ->
      List.find (matches (by_user u)) l1 = None ->
      matches (by_user u) old = true ->
      apply_update (counters_inc u name) (doc_fields old) = Some f' ->
      f' !! "visits" = Some (VInt n) ->
      Q (l1 ++ Document (doc_id old) (<["terra_level" := VInt (level_of_visits n)]> f')
            :: l2)) ->
  forall d, reachable d -> Q (impact d).
Proof.
  intros Hnil Hzero Hone Hinc d Hd.
  induction Hd as [d H0 | d p r d' _ IH H | d u name r d' _ IH H | d p r d' _ IH H].
  - rewrite H0. exact Hnil.
  - apply log_visit_outcome_inv in H.
    inversion H as [ | | | bdoc nm cat loc _ _ _ _ Hu rec
                   | | bdoc nm cat loc l1 old l2 f' n _ _ _ _ Hi Hl1 Hold Hf' Hv f''];
      subst; unfold visit_logged; cbn [impact]; try exact IH.
    + apply Hone; assumption.
    + rewrite Hi in IH. eapply Hinc; eassumption.
  - apply get_impact_inv in H as [(doc & _ & _ & ->) | (Hu & _ & ->)]; [exact IH|].
    apply Hzero; assumption.
  - rewrite (register_business_impact _ _ _ _ H). exact IH.
Qed.

Lemma level_of_visits_range (n : Z) : 0 <= level_of_visits n <= 3.
Proof.
  rewrite level_of_visits_table.
  destruct (n <? 3)%Z, (n <? 10)%Z, (n <? 20)%Z; lia.
Qed.

Lemma reachable_well_counted d :
  reachable d -> Forall well_counted (impact d).
Proof.
  apply (reachable_impact_ind (Forall well_counted)).
  - constructor.
  - intros l u name i z IH _. apply Forall_app. split; [exact IH|].
    constructor; [|constructor]. exists 0. repeat split; try reflexivity; try lia;
      vm_compute; discriminate.
  - intros l u name i IH _. apply Forall_app. split; [exact IH|].
    constructor; [|constructor]. exists 1. repeat split; try reflexivity; try lia;
      vm_compute; discriminate.
  - intros l1 old l2 u name f' n IH _ _ Hf' Hv.
    apply Forall_app in IH as [IH1 IH2].
    apply Forall_cons in IH2 as [(m & Hm & Hv0 & He & Hc & _) IH2].
    apply Forall_app. split; [exact IH1|]. constructor; [|exact IH2].
    destruct (apply_counters_inc_Some _ _ _ _ Hf') as (v & e & c & Hv' & He' & Hc' & ->).
    rewrite Hv0 in Hv'. rewrite He in He'. rewrite Hc in Hc'.
    injection Hv' as <-. injection He' as <-. injection Hc' as <-.
    rewrite !lookup_insert_ne in Hv by discriminate. rewrite lookup_insert_eq in Hv.
    injection Hv as <-.
    exists (m + 1). cbn [doc_fields]. split; [lia|]. split.
    { rewrite !lookup_insert_ne by discriminate. apply lookup_insert_eq. }
    split.
    { rewrite !lookup_insert_ne by discriminate. rewrite lookup_insert_eq.
      do 2 f_equal. lia. }
    split.
    { rewrite lookup_insert_ne by discriminate. apply lookup_insert_eq. }
    split; [apply lookup_insert_eq | apply level_of_visits_range].
Qed.

Ltac reach_seeded_visited :=
  apply (reach_log_visit seeded (VisitCreate.Make "u1" "alice" green_grove_id)
           (Return (ImpactBody (impact_record "u1" "alice" 1 10 1 0))));
  [apply reach_init; reflexivity | vm_compute; reflexivity].

(** X12: in every state reached from an empty [impact] collection, each Impact
    record holds, for some number [n >= 0] of visits, [visits = n],
    [eco_points = 10 * n], [community_impact = n] and
    [terra_level = level_of_visits n], a level between 0 and 3. *)
Theorem impact_counters_follow_visits (d : database) :
  reachable d -> Forall well_counted (impact d).
Proof. apply reachable_well_counted. Qed.

Lemma impact_counters_follow_visits_witness :
  Forall well_counted (impact seeded_visited).
Proof. apply (impact_counters_follow_visits seeded_visited). reach_seeded_visited. Defined.

Lemma filter_matches_same (l1 l2 : list document) old new :
  doc_fields new !! "user_id" = doc_fields old !! "user_id" ->
  forall u',
    length (List.filter (matches (by_user u')) (l1 ++ new :: l2))
    = length (List.filter (matches (by_user u')) (l1 ++ old :: l2)).
Proof.
  intros H u'. rewrite !List.filter_app, !length_app. cbn [List.filter].
  rewrite (matches_by_user u' new), (matches_by_user u' old), H.
  destruct (bool_decide _); reflexivity.
Qed.

Lemma find_none_filter {A} (p : A -> bool) (l : list A) :
  List.find p l = None -> List.filter p l = [].
Proof.
  induction l as [|a l IH]; [reflexivity|]. cbn [List.find List.filter].
  destruct (p a); [discriminate | exact IH].
Qed.

Lemma filter_snoc_user (l : list document) u i (f : pydict) u' :
  f !! "user_id" = Some (VStr u) ->
  List.find (matches (by_user u)) l = None ->
  (length (List.filter (matches (by_user u')) l) <= 1)%nat ->
  (length (List.filter (matches (by_user u')) (l ++ [Document i f])) <= 1)%nat.
Proof.
  intros Hf Hnone Hle. rewrite List.filter_app, length_app. cbn [List.filter].
  destruct (decide (u = u')) as [<-|Hne].
  - rewrite (find_none_filter _ _ Hnone). cbn [length].
    destruct (matches (by_user u) (Document i f)); cbn [length]; lia.
  - rewrite (matches_other_user u u' i f Hne Hf). cbn [length]. lia.
Qed.

(** X13: in every state reached from an empty [impact] collection there is
    at most one Impact document for any user id. *)
Theorem one_impact_record_per_user (d : database) (user_id : string) :
  reachable d ->
  (length (List.filter (matches (by_user user_id)) (impact d)) <= 1)%nat.
Proof.
  intros Hd. revert user_id.
  apply (reachable_impact_ind
           (fun l => forall u', (length (List.filter (matches (by_user u')) l) <= 1)%nat));
    [ | | | | exact Hd].
  - intros u'. cbn. lia.
  - intros l u name i z IH Hnone u'.
    apply (filter_snoc_user l u); [reflexivity | exact Hnone | apply IH].
  - intros l u name i IH Hnone u'.
    apply (filter_snoc_user l u); [reflexivity | exact Hnone | apply IH].
  - intros l1 old l2 u name f' n IH _ _ Hf' _ u'.
    rewrite (filter_matches_same l1 l2 old); [apply IH|].
    cbn [doc_fields]. rewrite lookup_insert_ne by discriminate.
    apply (counters_inc_user_id _ _ _ _ Hf').
Qed.

Lemma one_impact_record_per_user_witness :
  (length (List.filter (matches (by_user "u1")) (impact seeded_visited)) <= 1)%nat.
Proof. apply (one_impact_record_per_user seeded_visited "u1"). reach_seeded_visited. Defined.

Lemma well_counted_inc u name old :
  well_counted old ->
  exists f', apply_update (counters_inc u name) (doc_fields old) = Some f'.
Proof.
  intros (n & _ & Hv & He & Hc & _). rewrite apply_counters_inc, Hv, He, Hc.
  cbn [numeric]. eauto.
Qed.

Lemma Forall_middle {A} (P : A -> Prop) (l1 l2 : list A) (x : A) :
  Forall P (l1 ++ x :: l2) -> P x.
Proof. intros H. apply Forall_app in H as [_ H]. apply Forall_cons in H. apply H. Qed.

(** X16: in a state reached from an empty [impact] collection, a [log_visit]
    whose business resolves to a document with a name, a category and a
    location never raises: it returns an Impact. *)
Theorem log_visit_succeeds (d : database) (payload : VisitCreate.t) (bdoc : document) :
  reachable d ->
  lookup_business d (VisitCreate.business_id payload) = Some bdoc ->
  business_fields bdoc = true ->
  exists r d', log_visit payload (Some d) = (Return r, Some d').
Proof.
  intros Hd Hb Hf. destruct (log_visit_outcomes payload d) as (r & d' & E & Ho).
  inversion Ho as [ Hp | o Hp Hn | bdoc' Hb' Hf'
                  | bdoc' nm cat loc _ _ _ _ Hu rec
                  | bdoc' nm cat loc l1 old l2 _ _ _ _ Hi Hl1 Hold Hnone
                  | bdoc' nm cat loc l1 old l2 f' n _ _ _ _ Hi Hl1 Hold Hf' Hv f''];
    subst.
  - unfold lookup_business in Hb. rewrite Hp in Hb. discriminate.
  - congruence.
  - congruence.
  - eauto.
  - pose proof (reachable_well_counted d Hd) as Hall. rewrite Hi in Hall.
    apply Forall_middle in Hall.
    destruct (well_counted_inc (VisitCreate.user_id payload)
                (VisitCreate.username payload) old Hall) as (f' & Hf').
    congruence.
  - eauto.
Qed.

Lemma log_visit_succeeds_witness :
  exists r d',
    log_visit (VisitCreate.Make "u1" "bob" green_grove_id) (Some seeded_visited)
    = (Return r, Some d').
Proof.
  eapply (log_visit_succeeds seeded_visited (VisitCreate.Make "u1" "bob" green_grove_id)).
  - reach_seeded_visited.
  - vm_compute. reflexivity.
  - vm_compute. reflexivity.
Defined.

(** X10: a [log_visit], whatever its outcome, leaves the Impact record of
    every other user as it was. *)
Theorem log_visit_other_users (payload : VisitCreate.t) (d d' : database)
    (r : result impact_body) (other : string) :
  other <> VisitCreate.user_id payload ->
  log_visit payload (Some d) = (r, Some d') ->
  impact_of d' other = impact_of d other.
Proof.
  intros Hne H. apply log_visit_outcome_inv in H.
  inversion H as [ | | | bdoc nm cat loc _ _ _ _ Hu rec
                 | | bdoc nm cat loc l1 old l2 f' n _ _ _ _ Hi Hl1 Hold Hf' Hv f''];
    subst; unfold impact_of, visit_logged; cbn [impact]; try reflexivity.
  - apply find_snoc_other. apply (matches_other_user (VisitCreate.user_id payload));
      [congruence | reflexivity].
  - rewrite Hi. destruct old as [i f]. cbn [doc_id doc_fields] in *.
    apply matches_user_id in Hold. cbn [doc_fields] in Hold.
    apply find_replace.
    + apply (matches_other_user (VisitCreate.user_id payload)); [congruence | exact Hold].
    + apply (matches_other_user (VisitCreate.user_id payload)); [congruence|].
      unfold f''. rewrite lookup_insert_ne by discriminate.
      rewrite (counters_inc_user_id _ _ _ _ Hf'). exact Hold.
Qed.

Lemma log_visit_other_users_witness :
  impact_of seeded_visited "u2" = impact_of seeded "u2".
Proof.
  apply (log_visit_other_users (VisitCreate.Make "u1" "alice" green_grove_id) seeded
           seeded_visited (Return (ImpactBody (impact_record "u1" "alice" 1 10 1 0))) "u2").
  - discriminate.
  - vm_compute. reflexivity.
Defined.

Lemma matches_updated u name old f' t :
  matches (by_user u) old = true ->
  apply_update (counters_inc u name) (doc_fields old) = Some f' ->
  matches (by_user u) (Document (doc_id old) (<["terra_level" := VInt t]> f')) = true.
Proof.
  intros Hold Hf'. rewrite <- Hold. destruct old as [i f].
  apply matches_by_user_fields. rewrite lookup_insert_ne by discriminate.
  apply (counters_inc_user_id _ _ _ _ Hf').
Qed.

(** X11: after a completed [log_visit], a [get_impact] for the same user,
    with any username, answers with the Impact [log_visit] returned and
    writes nothing. *)
Theorem get_impact_after_log_visit (payload : VisitCreate.t) (d d' : database)
    (r : impact_body) (username : option string) :
  log_visit payload (Some d) = (Return r, Some d') ->
  get_impact (VisitCreate.user_id payload) username (Some d')
  = (Return (body_impact r), Some d').
Proof.
  intros H. apply log_visit_outcome_inv in H.
  inversion H as [ | | | bdoc nm cat loc _ _ _ _ Hu rec
                 | | bdoc nm cat loc l1 old l2 f' n _ _ _ _ Hi Hl1 Hold Hf' Hv f''];
    subst; cbn [body_impact].
  - rewrite (get_impact_existing _ _ _
               (Document (ObjectId.generate (N.succ (oid_counter d))) rec)).
    + cbn [doc_fields]. unfold rec. rewrite delete_id_record. reflexivity.
    + unfold impact_of, visit_logged. cbn [impact].
      apply find_middle; [exact Hu | apply matches_record].
  - apply (get_impact_existing _ _ _ (Document (doc_id old) f'')).
    unfold impact_of, visit_logged. cbn [impact].
    apply find_middle; [exact Hl1 | eapply matches_updated; eassumption].
Qed.

Lemma get_impact_after_log_visit_witness :
  get_impact "u1" (Some "carol") (Some seeded_visited)
  = (Return (impact_record "u1" "alice" 1 10 1 0), Some seeded_visited).
Proof.
  apply (get_impact_after_log_visit (VisitCreate.Make "u1" "alice" green_grove_id) seeded
           seeded_visited (ImpactBody (impact_record "u1" "alice" 1 10 1 0)) (Some "carol")).
  vm_compute. reflexivity.
Defined.

(** X9: a completed [log_visit] leaves the directory as it is and appends
    exactly one Visit document, which copies the name, the category and the
    location of the business as stored at that time and is worth 10 points. *)
Theorem log_visit_stores_snapshot (payload : VisitCreate.t) (d d' : database)
    (r : impact_body) :
  log_visit payload (Some d) = (Return r, Some d') ->
  exists bdoc v,
    lookup_business d (VisitCreate.business_id payload) = Some bdoc
    /\ business d' = business d
    /\ visit d' = visit d ++ [v]
    /\ doc_fields v !! "user_id" = Some (VStr (VisitCreate.user_id payload))
    /\ doc_fields v !! "business_id" = Some (VStr (VisitCreate.business_id payload))
    /\ doc_fields v !! "business_name" = doc_fields bdoc !! "name"
    /\ doc_fields v !! "category" = doc_fields bdoc !! "category"
    /\ doc_fields v !! "location" = doc_fields bdoc !! "location"
    /\ doc_fields v !! "eco_points" = Some (VInt 10).
Proof.
  intros H. apply log_visit_outcome_inv in H.
  inversion H as [ | | | bdoc nm cat loc Hb Hn Hc Hl Hu rec
                 | | bdoc nm cat loc l1 old l2 f' n Hb Hn Hc Hl Hi Hl1 Hold Hf' Hv f''];
    subst; exists bdoc, (visit_doc payload nm cat loc d);
    rewrite Hn, Hc, Hl; repeat split; try reflexivity; exact Hb.
Qed.

Lemma log_visit_stores_snapshot_witness :
  exists bdoc v,
    lookup_business seeded green_grove_id = Some bdoc
    /\ business seeded_visited = business seeded
    /\ visit seeded_visited = visit seeded ++ [v]
    /\ doc_fields v !! "user_id" = Some (VStr "u1")
    /\ doc_fields v !! "business_id" = Some (VStr green_grove_id)
    /\ doc_fields v !! "business_name" = doc_fields bdoc !! "name"
    /\ doc_fields v !! "category" = doc_fields bdoc !! "category"
    /\ doc_fields v !! "location" = doc_fields bdoc !! "location"
    /\ doc_fields v !! "eco_points" = Some (VInt 10).
Proof.
  apply (log_visit_stores_snapshot (VisitCreate.Make "u1" "alice" green_grove_id) seeded
           seeded_visited (ImpactBody (impact_record "u1" "alice" 1 10 1 0))).
  vm_compute. reflexivity.
Defined.

(** X17: when the Impact record of the user holds something that is not a
    number in a counter, [log_visit] raises after the Visit document was
    stored: the visit stays, the Impact collection is as before. *)
Theorem log_visit_refused_increment (payload : VisitCreate.t) (d : database)
    (bdoc old : document) :
  lookup_business d (VisitCreate.business_id payload) = Some bdoc ->
  business_fields bdoc = true ->
  impact_of d (VisitCreate.user_id payload) = Some old ->
  numeric (doc_fields old !! "visits") = None
  \/ numeric (doc_fields old !! "eco_points") = None
  \/ numeric (doc_fields old !! "community_impact") = None ->
  exists v d',
    log_visit payload (Some d) = (Raise WriteError, Some d')
    /\ visit d' = visit d ++ [v]
    /\ impact d' = impact d
    /\ business d' = business d.
Proof.
  intros Hb Hf Hold Hnum. destruct (log_visit_outcomes payload d) as (r & d' & E & Ho).
  assert (Hno : apply_update (counters_inc (VisitCreate.user_id payload)
                                (VisitCreate.username payload)) (doc_fields old) = None).
  { rewrite apply_counters_inc.
    destruct (numeric (doc_fields old !! "visits")); [|reflexivity].
    destruct (numeric (doc_fields old !! "eco_points")); [|reflexivity].
    destruct (numeric (doc_fields old !! "community_impact")); [|reflexivity].
    destruct Hnum as [?|[?|?]]; discriminate. }
  assert (Hsame : forall l1 old' l2,
             impact d = l1 ++ old' :: l2 ->
             List.find (matches (by_user (VisitCreate.user_id payload))) l1 = None ->
             matches (by_user (VisitCreate.user_id payload)) old' = true -> old' = old).
  { intros l1 old' l2 Hi Hl1 Hm. unfold impact_of in Hold.
    rewrite Hi, (find_middle _ _ _ _ Hl1 Hm) in Hold. congruence. }
  inversion Ho as [ Hp | o Hp Hn | bdoc' Hb' Hf'
                  | bdoc' nm cat loc _ _ _ _ Hu rec
                  | bdoc' nm cat loc l1 old' l2 _ _ _ _ Hi Hl1 Hm Hnone
                  | bdoc' nm cat loc l1 old' l2 f' n _ _ _ _ Hi Hl1 Hm Hf' Hv f''];
    subst.
  - unfold lookup_business in Hb. rewrite Hp in Hb. discriminate.
  - congruence.
  - congruence.
  - congruence.
  - eexists _, _. split; [exact E|]. unfold visit_logged. cbn. auto.
  - rewrite (Hsame _ _ _ Hi Hl1 Hm) in Hf'. congruence.
Qed.

Lemma log_visit_refused_increment_witness :
  exists v d',
    log_visit (VisitCreate.Make "u1" "alice" green_grove_id) (Some seeded_corrupt)
    = (Raise WriteError, Some d')
    /\ visit d' = visit seeded_corrupt ++ [v]
    /\ impact d' = impact seeded_corrupt
    /\ business d' = business seeded_corrupt.
Proof.
  eapply (log_visit_refused_increment (VisitCreate.Make "u1" "alice" green_grove_id)
            seeded_corrupt).
  - vm_compute. reflexivity.
  - vm_compute. reflexivity.
  - vm_compute. reflexivity.
  - left. vm_compute. reflexivity.
Defined.

(** ** [register_business], outcome by outcome *)

Lemma register_business_cases p d r d' :
  register_business p (Some d) = (r, Some d') ->
  (r = Raise ValidationError /\ d' = d /\ 100 < score_of p)
  \/ (60 <= score_of p <= 100
      /\ d' = Database
                (business d
                 ++ [Document (ObjectId.generate (oid_counter d))
                       (<["created_at" := VTime (clock d)]>
                          (Business.model_dump (registered p (score_of p))))])
                (visit d) (impact d) (N.succ (oid_counter d)) (S (clock d))).
Proof.
  assert (Hlow : 60 <= score_of p).
  { unfold score_of, count_true. destruct (BusinessCreate.eco_checks p); lia. }
  rewrite register_business_validate.
  destruct (Z.leb_spec 0 (score_of p)); [|lia].
  destruct (Z.leb_spec (score_of p) 100); cbn [andb].
  - cbv beta iota zeta delta
      [run bind create_document insert_one ret lift find_one raise set_coll get_coll
       business visit impact oid_counter clock].
    rewrite parse_str_generate.
    match goal with
    | |- context [List.find ?f ?l] => destruct (List.find f l) as [doc|]
    end; cbn [fmap option_fmap option_map]; intros [= _ <-]; right; split; auto.
  - intros [= <- <-]. left. split; [reflexivity|]. split; [reflexivity | lia].
Qed.

(** X5: [register_business] is all or nothing.  Either the computed score is
    above 100, the call raises and the database is unchanged; or exactly one
    Business document is appended, with the name, category and location of
    the payload and a score between 60 and 100, and the [visit] and [impact]
    collections are untouched. *)
Theorem register_business_all_or_nothing (payload : BusinessCreate.t)
    (d d' : database) (r : result pydict) :
  register_business payload (Some d) = (r, Some d') ->
  (r = Raise ValidationError /\ d' = d
   /\ 5 < count_true (BusinessCreate.eco_checks payload))
  \/ (exists stored s,
        business d' = business d ++ [stored]
        /\ visit d' = visit d /\ impact d' = impact d
        /\ doc_fields stored !! "name" = Some (VStr (BusinessCreate.name payload))
        /\ doc_fields stored !! "category" = Some (VStr (BusinessCreate.category payload))
        /\ doc_fields stored !! "location" = Some (VStr (BusinessCreate.location payload))
        /\ doc_fields stored !! "eco_checks"
           = Some (VBools (BusinessCreate.eco_checks payload))
        /\ doc_fields stored !! "eco_score" = Some (VInt s)
        /\ 60 <= s <= 100
        /\ business_fields stored = true).
Proof.
  intros H. apply register_business_cases in H as [(-> & -> & Hs) | (Hs & ->)].
  - left. split; [reflexivity|]. split; [reflexivity|].
    unfold score_of in Hs. destruct (BusinessCreate.eco_checks payload); lia.
  - right. eexists _, (score_of payload). cbn [business visit impact doc_fields].
    repeat split; try reflexivity; lia.
Qed.

Lemma register_business_all_or_nothing_witness :
  ((Raise ValidationError : result pydict) = Raise ValidationError /\ seeded = seeded
   /\ 5 < count_true [true; true; true; true; true; true])
  \/ (exists stored s,
        business seeded = business seeded ++ [stored]
        /\ visit seeded = visit seeded /\ impact seeded = impact seeded
        /\ doc_fields stored !! "name" = Some (VStr "Harvest Hill Farm")
        /\ doc_fields stored !! "category" = Some (VStr "Farms")
        /\ doc_fields stored !! "location" = Some (VStr "Foothills")
        /\ doc_fields stored !! "eco_checks"
           = Some (VBools [true; true; true; true; true; true])
        /\ doc_fields stored !! "eco_score" = Some (VInt s)
        /\ 60 <= s <= 100
        /\ business_fields stored = true).
Proof.
  apply (register_business_all_or_nothing
           (BusinessCreate.Make "Harvest Hill Farm" "Farms" "Foothills" None None
              [true; true; true; true; true; true] None)
           seeded seeded (Raise ValidationError)).
  vm_compute. reflexivity.
Defined.

(** ** [get_business] *)

Lemma get_business_found b d o doc :
  ObjectId.parse b = Some o ->
  List.find (matches (by_id o)) (business d) = Some doc ->
  get_business b (Some d) = (Return (response_of doc), Some d).
Proof.
  intros Hp Hf. unfold get_business. apply run_eq.
  step_with ltac:(unfold lift, to_obj_id; rewrite Hp; reflexivity).
  step_with ltac:(unfold find_one; db_norm; fold (by_id o); rewrite Hf; reflexivity).
  cbn [fmap option_fmap option_map]. unfold lift.
  rewrite business_doc_to_response_stored. reflexivity.
Qed.

Lemma find_by_id_doc_id o (l : list document) doc :
  List.find (matches (by_id o)) l = Some doc -> doc_id doc = o /\ In doc l.
Proof.
  intros H. pose proof (find_some _ _ H) as [Hin Hm].
  rewrite matches_by_id in Hm. apply bool_decide_eq_true_1 in Hm. auto.
Qed.

(** X3: [get_business] never writes.  With no database it raises status 500
    whatever the id; with a database it raises 400 for a malformed id before
    any lookup, 404 for a well-formed id that no document has, and otherwise
    returns the document whose [_id] is the requested one, with that id in
    canonical (lower-case) string form under [id]. *)
Theorem get_business_outcomes (business_id : string) :
  get_business business_id None
  = (Raise (HTTPException 500 "Database not available"), None)
  /\ forall d : database,
      match ObjectId.parse business_id with
      | None =>
          get_business business_id (Some d)
          = (Raise (HTTPException 400 "Invalid id"), Some d)
      | Some o =>
          match List.find (fun doc => String.eqb (doc_id doc) o) (business d) with
          | None =>
              get_business business_id (Some d)
              = (Raise (HTTPException 404 "Business not found"), Some d)
          | Some doc =>
              exists x,
                get_business business_id (Some d) = (Return x, Some d)
                /\ x !! "id" = Some (VStr (ObjectId.str o))
                /\ x !! "_id" = None
                /\ forall k, k <> "id" -> k <> "_id" -> x !! k = doc_fields doc !! k
          end
      end.
Proof.
  split; [reflexivity|]. intros d.
  destruct (ObjectId.parse business_id) as [o|] eqn:Hp.
  - assert (Hfind : List.find (fun doc => String.eqb (doc_id doc) o) (business d)
                    = List.find (matches (by_id o)) (business d)).
    { induction (business d) as [|a l IH]; [reflexivity|]. cbn [List.find].
      rewrite matches_by_id, IH.
      destruct (String.eqb_spec (doc_id a) o) as [E|E].
      - rewrite bool_decide_eq_true_2 by exact E. reflexivity.
      - rewrite bool_decide_eq_false_2 by exact E. reflexivity. }
    rewrite Hfind.
    destruct (List.find (matches (by_id o)) (business d)) as [doc|] eqn:Hf.
    + exists (response_of doc). split; [apply (get_business_found _ _ _ _ Hp Hf)|].
      destruct (find_by_id_doc_id _ _ _ Hf) as [<- _]. unfold response_of.
      split; [apply lookup_insert_eq|]. split.
      * rewrite lookup_insert_ne by discriminate. apply lookup_delete_eq.
      * intros k Hk1 Hk2. rewrite lookup_insert_ne by congruence.
        rewrite lookup_delete_ne by congruence. apply to_dict_field, Hk2.
    + unfold get_business. apply run_eq.
      step_with ltac:(unfold lift, to_obj_id; rewrite Hp; reflexivity).
      step_with ltac:(unfold find_one; db_norm; fold (by_id o); rewrite Hf; reflexivity).
      reflexivity.
  - unfold get_business. apply run_eq. eapply bind_Raise.
    unfold lift, to_obj_id. rewrite Hp. reflexivity.
Qed.

(** X4: a Business that [register_business] returned can be fetched back:
    when the next identifier is not in use, [get_business] on the returned
    [id] answers with the very record [register_business] returned. *)
Theorem register_then_get_business (payload : BusinessCreate.t) (d d' : database)
    (resp : pydict) :
  oid_unused c_business d = true ->
  register_business payload (Some d) = (Return resp, Some d') ->
  exists id,
    resp !! "id" = Some (VStr id)
    /\ get_business id (Some d') = (Return resp, Some d').
Proof.
  intros Hfresh H.
  pose proof (register_business_cases _ _ _ _ H) as [(Hr & _) | (Hs & Hd')];
    [discriminate|].
  rewrite register_business_stored in H by (try lia; exact Hfresh).
  injection H as <- _.
  exists (ObjectId.str (ObjectId.generate (oid_counter d))).
  split; [apply lookup_insert_eq|].
  rewrite Hd'.
  erewrite get_business_found;
    [ | apply parse_str_generate
      | cbn [business]; apply find_middle;
        [apply (oid_unused_find c_business), Hfresh
        | rewrite matches_by_id; apply bool_decide_eq_true_2; reflexivity] ].
  unfold response_of, to_dict. cbn [doc_id doc_fields].
  rewrite delete_insert_eq, delete_id by reflexivity. reflexivity.
Qed.

Lemma register_then_get_business_witness :
  exists id,
    local_loop_response !! "id" = Some (VStr id)
    /\ get_business id (Some seeded_local_loop)
       = (Return local_loop_response, Some seeded_local_loop).
Proof.
  apply (register_then_get_business local_loop seeded).
  - vm_compute. reflexivity.
  - vm_compute. reflexivity.
Defined.

(** ** [to_obj_id] *)

Lemma fromhex_length (s bs : string) :
  ObjectId.fromhex s = Some bs -> (2 * String.length bs <= String.length s)%nat.
Proof.
  revert bs. remember (String.length s) as n eqn:Hn.
  revert s Hn. induction n as [n IH] using lt_wf_ind. intros s Hn bs.
  destruct s as [|c s']; cbn [ObjectId.fromhex].
  - intros [= <-]. cbn. lia.
  - destruct (ObjectId.is_space c).
    + intros H. cbn [String.length] in Hn.
      pose proof (IH (String.length s') ltac:(lia) s' eq_refl bs H). lia.
    + destruct (ObjectId.hex_value c); [|discriminate].
      destruct s' as [|c' s'']; [discriminate|].
      destruct (ObjectId.hex_value c'); [|discriminate].
      destruct (ObjectId.fromhex s'') as [bs'|] eqn:E; [|discriminate].
      intros [= <-]. cbn [String.length] in *.
      pose proof (IH (String.length s'') ltac:(lia) s'' eq_refl bs' E). lia.
Qed.

(** X1: [to_obj_id] accepts the string form of every 12-byte identifier and
    gives that identifier back; it raises status 400 "Invalid id" for every
    string that is not 24 characters long; and whatever it accepts is 24
    characters long and denotes at most 12 bytes. *)
Theorem to_obj_id_round_trip :
  (forall binary : string,
      String.length binary = 12%nat ->
      to_obj_id (ObjectId.str binary) = Return binary)
  /\ (forall id_str : string,
        String.length id_str <> 24%nat ->
        to_obj_id id_str = Raise (HTTPException 400 "Invalid id"))
  /\ (forall id_str binary : string,
        to_obj_id id_str = Return binary ->
        String.length id_str = 24%nat /\ (String.length binary <= 12)%nat).
Proof.
  split; [|split].
  - intros b Hb. unfold to_obj_id, ObjectId.parse, ObjectId.str.
    rewrite length_hexlify, Hb. cbn [Nat.mul Nat.add Nat.eqb].
    rewrite fromhex_hexlify. reflexivity.
  - intros s Hs. unfold to_obj_id, ObjectId.parse.
    destruct (Nat.eqb_spec (String.length s) 24); [contradiction | reflexivity].
  - intros s b. unfold to_obj_id, ObjectId.parse.
    destruct (Nat.eqb_spec (String.length s) 24) as [E|E]; [|discriminate].
    destruct (ObjectId.fromhex s) as [b'|] eqn:Hf; [|discriminate].
    intros [= <-]. split; [exact E|]. apply fromhex_length in Hf. lia.
Qed.

Lemma to_obj_id_round_trip_witness :
  to_obj_id (ObjectId.str (ObjectId.generate 255)) = Return (ObjectId.generate 255)
  /\ to_obj_id "nope" = Raise (HTTPException 400 "Invalid id")
  /\ String.length green_grove_id = 24%nat.
Proof.
  destruct to_obj_id_round_trip as (Hrt & Hlen & Hacc).
  split; [apply (Hrt (ObjectId.generate 255)); reflexivity|].
  split; [apply (Hlen "nope"); vm_compute; discriminate|].
  apply (Hacc green_grove_id (ObjectId.generate 0)). vm_compute. reflexivity.
Defined.

(** ** [business_doc_to_response] *)

(** X2: on a document with an [ObjectId] under [_id],
    [business_doc_to_response] puts its string form under [id], removes
    [_id] and keeps every other field; on a document with no [_id] it raises
    [KeyError]. *)
Theorem business_doc_to_response_fields (doc : pydict) :
  (forall o, doc !! "_id" = Some (VOid o) ->
     exists x,
       business_doc_to_response doc = Return x
       /\ x !! "id" = Some (VStr (ObjectId.str o))
       /\ x !! "_id" = None
       /\ forall k, k <> "id" -> k <> "_id" -> x !! k = doc !! k)
  /\ (doc !! "_id" = None -> business_doc_to_response doc = Raise KeyError).
Proof.
  split.
  - intros o Ho. unfold business_doc_to_response. rewrite Ho. eexists. split; [reflexivity|].
    split; [apply lookup_insert_eq|]. split.
    + rewrite lookup_insert_ne by discriminate. apply lookup_delete_eq.
    + intros k Hk1 Hk2. rewrite lookup_insert_ne by congruence.
      apply lookup_delete_ne. congruence.
  - intros Hn. unfold business_doc_to_response. rewrite Hn. reflexivity.
Qed.

Lemma business_doc_to_response_fields_witness :
  (exists x,
      business_doc_to_response
        (<["_id" := VOid (ObjectId.generate 1)]> local_loop_stored) = Return x
      /\ x !! "id" = Some (VStr (ObjectId.str (ObjectId.generate 1)))
      /\ x !! "_id" = None
      /\ forall k, k <> "id" -> k <> "_id" ->
           x !! k = (<["_id" := VOid (ObjectId.generate 1)]> local_loop_stored) !! k)
  /\ business_doc_to_response local_loop_stored = Raise KeyError.
Proof.
  split.
  - apply (proj1 (business_doc_to_response_fields
                    (<["_id" := VOid (ObjectId.generate 1)]> local_loop_stored))).
    reflexivity.
  - apply (proj2 (business_doc_to_response_fields local_loop_stored)). reflexivity.
Defined.

(** ** Listings *)

Lemma length_take_le {A} (n : nat) (l : list A) : (length (take n l) <= n)%nat.
Proof. rewrite length_take. lia. Qed.

Lemma Forall_take {A} (P : A -> Prop) (n : nat) (l : list A) :
  Forall P l -> Forall P (take n l).
Proof.
  intros H. rewrite Forall_forall in *. intros x Hx. apply H.
  apply list_elem_of_In. apply (incl_take n l). apply list_elem_of_In, Hx.
Qed.

Lemma Forall_filter_pred {A} (f : A -> bool) (l : list A) :
  Forall (fun x => f x = true) (List.filter f l).
Proof.
  rewrite Forall_forall. intros x Hx. apply list_elem_of_In in Hx.
  apply filter_In in Hx. apply Hx.
Qed.

Lemma filter_all {A} (f : A -> bool) (l : list A) :
  (forall x, f x = true) -> List.filter f l = l.
Proof.
  intros H. induction l as [|a l IH]; [reflexivity|].
  cbn [List.filter]. rewrite H, IH. reflexivity.
Qed.

Section DirectoryListing.

Variable regex_compile : string -> string -> option (string -> bool).

Lemma category_filtered (f : document -> bool) (category : option string) (d : database) c :
  category = Some c -> c <> "" -> lower c <> "all" ->
  Forall (fun doc => doc_fields doc !! "category" = Some (VStr c))
    (take 100
       (List.filter
          (fun doc =>
             matches
               match category with
               | Some c =>
                   if truthy category && negb (String.eqb (lower c) "all")
                   then [("category", VStr c)] else []
               | None => []
               end doc && f doc) (business d))).
Proof.
  intros -> Hc Hall. apply Forall_take.
  eapply Forall_impl; [apply Forall_filter_pred|]. cbv beta.
  intros doc Hdoc. apply andb_true_iff in Hdoc as [Hq _].
  destruct c as [|a c']; [congruence|]. cbn [truthy andb] in Hq.
  destruct (String.eqb_spec (lower (String a c')) "all") as [E|_]; [congruence|].
  cbn [negb] in Hq. unfold matches in Hq. cbn [forallb fst snd] in Hq.
  rewrite andb_true_r in Hq. apply bool_decide_eq_true_1 in Hq.
  rewrite to_dict_field in Hq by discriminate. exact Hq.
Qed.

(** X6: [list_businesses] never writes.  It raises when a search text is
    given that is not empty and not a valid regular expression, and only
    then; otherwise it answers with at most 100 stored documents, each with
    [id] in place of [_id]; when a category other than "all" is asked for,
    every returned document has exactly that category, and when a search
    text is given, the name of every returned document matches it as a
    case-insensitive regular expression. *)
Theorem list_businesses_filters (search category : option string) (d : database) :
  (forall r d',
      list_businesses regex_compile search category (Some d) = (r, d') -> d' = Some d)
  /\ (forall pat, search = Some pat -> pat <> "" -> regex_compile pat "i" = None ->
        list_businesses regex_compile search category (Some d)
        = (Raise OperationFailure, Some d))
  /\ ((forall pat, search = Some pat -> pat <> "" -> regex_compile pat "i" <> None) ->
      exists docs,
        list_businesses regex_compile search category (Some d)
        = (Return (List.map response_of docs), Some d)
        /\ (length docs <= 100)%nat
        /\ incl docs (business d)
        /\ (forall c, category = Some c -> c <> "" -> lower c <> "all" ->
              Forall (fun doc => doc_fields doc !! "category" = Some (VStr c)) docs)
        /\ (forall pat m, search = Some pat -> pat <> "" ->
              regex_compile pat "i" = Some m ->
              Forall (fun doc => exists name,
                          doc_fields doc !! "name" = Some (VStr name)
                          /\ m name = true) docs)).
Proof.
  split; [|split].
  - intros r d'. unfold list_businesses.
    match goal with
    | |- context [match ?nm with Return _ => _ | Raise _ => _ end] =>
        destruct nm as [f|e]
    end; intros [= _ <-]; reflexivity.
  - intros pat -> Hpat Hbad. destruct pat as [|a pat']; [congruence|].
    unfold list_businesses. cbn [truthy]. rewrite Hbad. reflexivity.
  - intros Hok. unfold list_businesses.
    destruct search as [[|a pat']|].
    + cbn [truthy]. eexists. rewrite map_result_responses.
      split; [reflexivity|]. split; [apply length_take_le|]. split.
      { intros x Hx. apply incl_take in Hx. apply incl_filter in Hx. exact Hx. }
      split; [intros c; apply category_filtered|].
      intros pat m [= <-] Hne. congruence.
    + cbn [truthy].
      destruct (regex_compile (String a pat') "i") as [m|] eqn:Hm.
      2: { exfalso. apply (Hok (String a pat')); [reflexivity | discriminate | exact Hm]. }
      eexists. rewrite map_result_responses.
      split; [reflexivity|]. split; [apply length_take_le|]. split.
      { intros x Hx. apply incl_take in Hx. apply incl_filter in Hx. exact Hx. }
      split; [intros c; apply category_filtered|].
      intros pat m' [= <-] _ Hm'. rewrite Hm in Hm'. injection Hm' as <-.
      apply Forall_take.
      eapply Forall_impl; [apply Forall_filter_pred|]. cbv beta.
      intros doc Hdoc. apply andb_true_iff in Hdoc as [_ Hn].
      rewrite to_dict_field in Hn by discriminate.
      destruct (doc_fields doc !! "name") as [[]|]; try discriminate. eauto.
    + eexists. rewrite map_result_responses.
      split; [reflexivity|]. split; [apply length_take_le|]. split.
      { intros x Hx. apply incl_take in Hx. apply incl_filter in Hx. exact Hx. }
      split; [intros c; apply category_filtered|].
      intros pat m [=].
Qed.

(** X7: for [list_businesses], a category that reads "all" in any letter
    case, an empty category and no category are the same request, and so are
    an empty search text and none; with neither filter the answer is the
    first 100 documents of the directory in store order. *)
Theorem list_businesses_no_filter (search category : option string) (d : database) :
  (forall c, category = Some c -> lower c = "all" \/ c = "" ->
     list_businesses regex_compile search category (Some d)
     = list_businesses regex_compile search None (Some d))
  /\ (search = Some "" ->
      list_businesses regex_compile search category (Some d)
      = list_businesses regex_compile None category (Some d))
  /\ list_businesses regex_compile None None (Some d)
     = (Return (List.map response_of (take 100 (business d))), Some d).
Proof.
  split; [|split].
  - intros c -> [Hc | ->]; [|reflexivity].
    unfold list_businesses. rewrite Hc. cbn [String.eqb Ascii.eqb negb].
    rewrite andb_false_r. reflexivity.
  - intros ->. reflexivity.
  - unfold list_businesses. rewrite map_result_responses.
    assert (E : List.filter (fun doc => matches [] doc && true) (business d) = business d).
    { apply filter_all. intros doc. reflexivity. }
    rewrite E. reflexivity.
Qed.

End DirectoryListing.

Lemma list_businesses_filters_witness :
  list_businesses lenient_regex (Some "(") (Some "Groceries") (Some seeded)
  = (Raise OperationFailure, Some seeded)
  /\ exists docs,
      list_businesses lenient_regex (Some "grove") (Some "Groceries") (Some seeded)
      = (Return (List.map response_of docs), Some seeded)
      /\ Forall (fun doc => doc_fields doc !! "category" = Some (VStr "Groceries")) docs
      /\ Forall (fun doc => exists name, doc_fields doc !! "name" = Some (VStr name)) docs.
Proof.
  split.
  - apply (proj1 (proj2 (list_businesses_filters lenient_regex (Some "(")
                           (Some "Groceries") seeded)) "(");
      [reflexivity | discriminate | reflexivity].
  - destruct (proj2 (proj2 (list_businesses_filters lenient_regex (Some "grove")
                              (Some "Groceries") seeded)))
      as (docs & E & _ & _ & Hc & Hs).
    { intros pat [= <-] _. discriminate. }
    exists docs. split; [exact E|]. split.
    + apply (Hc "Groceries"); [reflexivity | discriminate | vm_compute; discriminate].
    + eapply Forall_impl;
        [apply (Hs "grove" (fun _ => true)); [reflexivity | discriminate | reflexivity]|].
      cbv beta. intros doc (name & Hn & _). eauto.
Defined.

Lemma list_businesses_no_filter_witness :
  list_businesses lenient_regex (Some "") (Some "ALL") (Some seeded)
  = list_businesses lenient_regex None None (Some seeded).
Proof.
  destruct (list_businesses_no_filter lenient_regex (Some "") (Some "ALL") seeded)
    as (Hcat & Hsearch & _).
  rewrite (Hcat "ALL"); [|reflexivity | left; reflexivity].
  destruct (list_businesses_no_filter lenient_regex (Some "") None seeded)
    as (_ & Hsearch' & _).
  apply Hsearch'. reflexivity.
Defined.

(** ** The sort of [get_user_visits] *)

Lemma insert_desc_perm key x l : Permutation (insert_desc key x l) (x :: l).
Proof.
  induction l as [|y l IH]; cbn [insert_desc]; [reflexivity|].
  destruct (key y <? key x)%nat; [reflexivity|].
  rewrite IH. apply perm_swap.
Qed.

Lemma sort_desc_perm key l : Permutation (sort_desc key l) l.
Proof.
  induction l as [|x l IH]; [reflexivity|].
  cbn [sort_desc foldr]. fold (sort_desc key l).
  rewrite insert_desc_perm. constructor. exact IH.
Qed.

Lemma insert_desc_sorted (key : document -> nat) x l :
  StronglySorted (fun a b => (key b <= key a)%nat) l ->
  StronglySorted (fun a b => (key b <= key a)%nat) (insert_desc key x l).
Proof.
  induction l as [|y l IH]; cbn [insert_desc]; intros Hs.
  - constructor; constructor.
  - apply StronglySorted_inv in Hs as [Hl Hy].
    destruct (Nat.ltb_spec (key y) (key x)) as [Hlt|Hge].
    + constructor; [constructor; assumption|].
      constructor; [lia|]. eapply Forall_impl; [exact Hy|]. cbv beta. intros z Hz. lia.
    + constructor; [apply IH, Hl|].
      rewrite Forall_forall. intros z Hz. apply list_elem_of_In in Hz.
      apply In_insert_desc in Hz as [->|Hz]; [lia|].
      rewrite Forall_forall in Hy. apply Hy, list_elem_of_In, Hz.
Qed.

Lemma sort_desc_sorted (key : document -> nat) l :
  StronglySorted (fun a b => (key b <= key a)%nat) (sort_desc key l).
Proof.
  induction l as [|x l IH]; [constructor|].
  cbn [sort_desc foldr]. fold (sort_desc key l). apply insert_desc_sorted, IH.
Qed.

Lemma StronglySorted_take {A} (R : A -> A -> Prop) (n : nat) (l : list A) :
  StronglySorted R l -> StronglySorted R (take n l).
Proof.
  revert n. induction l as [|a l IH]; intros [|n] Hs; cbn [take firstn]; try constructor.
  - apply IH. apply (StronglySorted_inv Hs).
  - apply Forall_take. apply (StronglySorted_inv Hs).
Qed.

(** X8: [get_user_visits] never writes and never raises; it answers with at
    most 100 Visit documents, all of them stored visits of the requested
    user, no document followed by a more recently created one; when the user
    has at most 100 visits the answer holds every one of them exactly once. *)
Theorem get_user_visits_newest_first (user_id : string) (d : database) :
  exists docs,
    get_user_visits user_id (Some d) = (Return (List.map response_of docs), Some d)
    /\ (length docs <= 100)%nat
    /\ Forall (fun doc => In doc (visit d)
                          /\ doc_fields doc !! "user_id" = Some (VStr user_id)) docs
    /\ newest_first docs
    /\ ((count_visits d user_id <= 100)%nat ->
        Permutation docs (List.filter (matches (by_user user_id)) (visit d))).
Proof.
  unfold get_user_visits. eexists. rewrite map_result_responses.
  split; [reflexivity|]. split; [apply length_take_le|]. split; [|split].
  - rewrite Forall_forall. intros doc Hdoc. apply list_elem_of_In in Hdoc.
    apply incl_take, incl_sort_desc in Hdoc. apply filter_In in Hdoc as [Hin Hm].
    split; [exact Hin | apply matches_user_id, Hm].
  - apply StronglySorted_take, sort_desc_sorted.
  - intros Hle. rewrite take_ge.
    + apply sort_desc_perm.
    + rewrite (Permutation_length (sort_desc_perm _ _)). exact Hle.
Qed.

Lemma get_user_visits_newest_first_witness :
  exists docs,
    get_user_visits "u1" (Some seeded_visited)
    = (Return (List.map response_of docs), Some seeded_visited)
    /\ Permutation docs (List.filter (matches (by_user "u1")) (visit seeded_visited)).
Proof.
  destruct (get_user_visits_newest_first "u1" seeded_visited) as (docs & E & _ & _ & _ & Hp).
  exists docs. split; [exact E|]. apply Hp. vm_compute. lia.
Defined.

(** ** [get_impact] *)

(** X15: with a database, [get_impact] never raises and touches neither the
    directory nor the visits.  The answer is for the requested user and has
    no [_id].  When the user has a record, the answer is that record, nothing
    is written and the [username] argument plays no part; when the user has
    none, one record is appended whose username is the argument, or "Guest"
    when the argument is missing or empty. *)
Theorem get_impact_answer (user_id : string) (username : option string) (d : database) :
  exists x d',
    get_impact user_id username (Some d) = (Return x, Some d')
    /\ x !! "user_id" = Some (VStr user_id)
    /\ x !! "_id" = None
    /\ business d' = business d /\ visit d' = visit d
    /\ match impact_of d user_id with
       | Some doc =>
           d' = d /\ x = delete "_id" (doc_fields doc)
           /\ forall other, get_impact user_id other (Some d) = (Return x, Some d)
       | None =>
           (exists new, impact d' = impact d ++ [new] /\ impact_of d' user_id = Some new)
           /\ x !! "username"
              = Some (VStr match username with
                           | Some (String a s) => String a s
                           | _ => "Guest"
                           end)
       end.
Proof.
  destruct (impact_of d user_id) as [doc|] eqn:Hu.
  - eexists _, _. split; [apply (get_impact_existing _ _ _ _ Hu)|].
    split.
    { rewrite lookup_delete_ne by discriminate. apply matches_user_id.
      unfold impact_of in Hu. apply (find_some _ _ Hu). }
    split; [apply lookup_delete_eq|]. split; [reflexivity|]. split; [reflexivity|].
    split; [reflexivity|]. split; [reflexivity|].
    intros other. apply (get_impact_existing _ _ _ _ Hu).
  - eexists _, _. split; [apply (get_impact_new _ _ _ Hu)|].
    cbn [business visit impact]. split; [reflexivity|]. split; [reflexivity|].
    split; [reflexivity|]. split; [reflexivity|]. split.
    + eexists. split; [reflexivity|]. unfold impact_of. cbn [impact].
      apply find_middle; [exact Hu | apply matches_fresh; reflexivity].
    + destruct username as [[|a s]|]; reflexivity.
Qed.

(** ** The schemas *)

(** X18: dumping a Business and validating the dump gives the Business back
    exactly when its [eco_score] lies between 0 and 100, and is refused
    otherwise; dumping a Visit and validating the dump always gives it back. *)
Theorem dump_then_validate :
  (forall b : Business.t,
      Business.validate (Business.model_dump b)
      = if (0 <=? Business.eco_score b)%Z && (Business.eco_score b <=? 100)%Z
        then Return b else Raise ValidationError)
  /\ (forall v : Visit.t, Visit.validate (Visit.model_dump v) = Return v).
Proof.
  split.
  - intros [n c l [w|] [de|] ch [lg|] s [h|]];
      unfold Business.validate;
      repeat match goal with
             | |- context [@lookup _ _ _ _ ?k ?m] =>
                 let v := eval vm_compute in (m !! k) in
                 change (m !! k) with v
             end;
      cbn [field_str field_optional_str field_bools field_int and_then
           Business.eco_score];
      destruct ((0 <=? s)%Z && (s <=? 100)%Z); reflexivity.
  - intros [u b n c l e]. reflexivity.
Qed.

Lemma seed_data_empty v i c k :
  exists b1 b2 b3 b4 b5,
    seed_data (Some (Database [] v i c k))
    = (Return tt, Some (Database [b1; b2; b3; b4; b5] v i (c + 5)%N (5 + k)%nat))
    /\ List.map (fun doc => doc_fields doc !! "name") [b1; b2; b3; b4; b5]
       = List.map (fun s => s !! "name") SAMPLE_BUSINESSES
    /\ List.map (fun doc => doc_fields doc !! "eco_score") [b1; b2; b3; b4; b5]
       = [Some (VInt 92); Some (VInt 88); Some (VInt 84); Some (VInt 95); Some (VInt 90)]
    /\ forallb business_fields [b1; b2; b3; b4; b5] = true.
Proof.
  eexists _, _, _, _, _. split.
  - unfold seed_data. cbn [business length Nat.eqb]. apply run_eq.
    unfold SAMPLE_BUSINESSES. cbn [for_each].
    repeat (eapply bind_Return;
            [eapply bind_Return; [reflexivity|]; eapply bind_Return; [reflexivity|];
             reflexivity | db_norm; cbn [app]]).
    unfold ret. f_equal. f_equal; try reflexivity. lia.
  - split; [reflexivity|]. split; reflexivity.
Qed.

(** X19: [seed_data] never raises and seeds at most once.  With no database,
    or with a directory that holds any document, it changes nothing; on an
    empty directory it stores the five sample businesses in order, each with
    the score written in its literal (not one computed from its checklist),
    and leaves visits and Impact records alone.  Running it a second time
    changes nothing. *)
Theorem seed_data_once (db : option database) :
  fst (seed_data db) = Return tt
  /\ seed_data (snd (seed_data db)) = (Return tt, snd (seed_data db))
  /\ match db with
     | None => snd (seed_data db) = None
     | Some d =>
         exists d',
           snd (seed_data db) = Some d'
           /\ visit d' = visit d /\ impact d' = impact d
           /\ match business d with
              | [] =>
                  List.map (fun doc => doc_fields doc !! "name") (business d')
                  = List.map (fun s => s !! "name") SAMPLE_BUSINESSES
                  /\ List.map (fun doc => doc_fields doc !! "eco_score") (business d')
                     = [Some (VInt 92); Some (VInt 88); Some (VInt 84);
                        Some (VInt 95); Some (VInt 90)]
                  /\ forallb business_fields (business d') = true
              | _ :: _ => d' = d
              end
     end.
Proof.
  destruct db as [[[|b bs] v i c k]|].
  - destruct (seed_data_empty v i c k) as (b1 & b2 & b3 & b4 & b5 & E & Hn & Hs & Hf).
    rewrite E. cbn [fst snd]. split; [reflexivity|]. split; [reflexivity|].
    eexists. split; [reflexivity|]. cbn [business visit impact].
    repeat split; assumption.
  - split; [reflexivity|]. split; [reflexivity|].
    eexists. split; [reflexivity|]. repeat split.
  - repeat split.
Qed.

Lemma reachable_from_empty_reachable d : reachable_from_empty d -> reachable d.
Proof.
  induction 1 as [d _ Hi | | | ].
  - apply reach_init, Hi.
  - eapply reach_log_visit; eassumption.
  - eapply reach_get_impact; eassumption.
  - eapply reach_register_business; eassumption.
Qed.

Lemma count_visits_logged p nm cat loc d imp next u :
  count_visits (visit_logged p nm cat loc d imp next) u
  = if decide (u = VisitCreate.user_id p) then S (count_visits d u) else count_visits d u.
Proof.
  unfold count_visits, visit_logged, visit_doc. cbn [visit].
  rewrite List.filter_app, length_app. cbn [List.filter].
  destruct (decide (u = VisitCreate.user_id p)) as [->|Hne].
  - rewrite (matches_fresh (VisitCreate.user_id p)) by reflexivity. cbn [length]. lia.
  - rewrite (matches_other_user (VisitCreate.user_id p) u) by (congruence || reflexivity).
    cbn [length]. lia.
Qed.

Lemma visits_counted_log_visit p d r d' :
  reachable d -> visits_counted d ->
  log_visit p (Some d) = (r, Some d') -> visits_counted d'.
Proof.
  intros Hd Hinv H. apply log_visit_outcome_inv in H.
  inversion H as [ | | | bdoc nm cat loc _ _ _ _ Hu rec
                 | bdoc nm cat loc l1 old l2 _ _ _ _ Hi Hl1 Hold Hnone
                 | bdoc nm cat loc l1 old l2 f' n _ _ _ _ Hi Hl1 Hold Hf' Hv f''];
    subst; try exact Hinv.
  - intros u. rewrite count_visits_logged. unfold impact_of, visit_logged, rec.
    cbn [impact].
    destruct (decide (u = VisitCreate.user_id p)) as [->|Hne].
    + rewrite (find_middle _ _ [] _ Hu (matches_record _ _ _ _ _ _ _)).
      cbn [doc_fields]. specialize (Hinv (VisitCreate.user_id p)). rewrite Hu in Hinv.
      rewrite Hinv. reflexivity.
    + rewrite find_snoc_other
        by (apply (matches_other_user (VisitCreate.user_id p)); [congruence | reflexivity]).
      apply (Hinv u).
  - pose proof (reachable_well_counted d Hd) as Hall. rewrite Hi in Hall.
    apply Forall_middle in Hall.
    destruct (well_counted_inc (VisitCreate.user_id p) (VisitCreate.username p) old Hall)
      as (f' & Hf'). congruence.
  - assert (Hfind : impact_of d (VisitCreate.user_id p) = Some old)
      by (unfold impact_of; rewrite Hi; apply find_middle; assumption).
    intros u. rewrite count_visits_logged. unfold impact_of, visit_logged, f''.
    cbn [impact].
    destruct (decide (u = VisitCreate.user_id p)) as [->|Hne].
    + rewrite (find_middle _ _ _ _ Hl1 (matches_updated _ _ _ _ _ Hold Hf')).
      cbn [doc_fields]. rewrite lookup_insert_ne by discriminate.
      specialize (Hinv (VisitCreate.user_id p)). rewrite Hfind in Hinv.
      destruct (counters_inc_visits _ _ _ _ Hf') as (v & Hnum & Hv').
      rewrite Hinv in Hnum. injection Hnum as <-.
      rewrite Hv'. do 2 f_equal. lia.
    + specialize (Hinv u). unfold impact_of in Hinv. rewrite Hi in Hinv.
      destruct old as [io fo]. cbn [doc_id doc_fields] in *.
      pose proof (matches_user_id _ _ Hold) as Huid. cbn [doc_fields] in Huid.
      rewrite (find_replace _ l1 l2 (Document io fo)); [exact Hinv | |].
      * apply (matches_other_user (VisitCreate.user_id p)); [congruence | exact Huid].
      * apply (matches_other_user (VisitCreate.user_id p)); [congruence|].
        rewrite lookup_insert_ne by discriminate.
        rewrite (counters_inc_user_id _ _ _ _ Hf'). exact Huid.
Qed.

Lemma visits_counted_get_impact u name d r d' :
  visits_counted d -> get_impact u name (Some d) = (r, Some d') -> visits_counted d'.
Proof.
  intros Hinv. destruct (impact_of d u) as [doc|] eqn:Hu.
  - rewrite (get_impact_existing _ _ _ _ Hu). intros [= _ <-]. exact Hinv.
  - rewrite (get_impact_new _ _ _ Hu). intros [= _ <-].
    intros u'. unfold impact_of, count_visits. cbn [impact visit].
    fold (count_visits d u'). destruct (decide (u' = u)) as [->|Hne].
    + rewrite (find_middle _ _ [] _ Hu) by (apply matches_fresh; reflexivity).
      cbn [doc_fields]. specialize (Hinv u). rewrite Hu in Hinv. rewrite Hinv. reflexivity.
    + rewrite find_snoc_other
        by (apply (matches_other_user u); [congruence | reflexivity]).
      apply (Hinv u').
Qed.

Lemma visits_counted_register p d r d' :
  visits_counted d -> register_business p (Some d) = (r, Some d') -> visits_counted d'.
Proof.
  intros Hinv H. apply register_business_cases in H as [(_ & -> & _) | (_ & ->)];
    [exact Hinv|].
  intros u. apply (Hinv u).
Qed.

(** X14: in every state reached from a store with no visits and no Impact
    records, the [visits] counter of each user's Impact record is the number
    of Visit documents stored for that user, and a user with no Impact record
    has no Visit document. *)
Theorem visits_counter_counts_visits (d : database) :
  reachable_from_empty d -> visits_counted d.
Proof.
  induction 1 as [d Hv Hi | d p r d' Hd IH H | d u name r d' Hd IH H | d p r d' Hd IH H].
  - intros u. unfold impact_of, count_visits. rewrite Hv, Hi. reflexivity.
  - eapply visits_counted_log_visit; [apply reachable_from_empty_reachable | | ]; eassumption.
  - eapply visits_counted_get_impact; eassumption.
  - eapply visits_counted_register; eassumption.
Qed.

Lemma visits_counter_counts_visits_witness : visits_counted seeded_visited.
Proof.
  apply (visits_counter_counts_visits seeded_visited).
  apply (empty_log_visit seeded (VisitCreate.Make "u1" "alice" green_grove_id)
           (Return (ImpactBody (impact_record "u1" "alice" 1 10 1 0)))).
  - apply empty_init; reflexivity.
  - vm_compute. reflexivity.
Defined.
